(** * HubDoc Preview: ingestion, session cache, summarization and rendering

    A shallow embedding of the document viewer's core:
    - [App.tsx]: the restore and save effects, [fileToBase64], [handleFiles],
      [handleSummarize], [removeFile], the grid of previews;
    - [services/geminiService]: [summarizeDocument];
    - [components/PreviewCard]: [renderContent] and the header's buttons;
    - [types]: [PreviewFile].

    Conventions of the model.
    - A JavaScript string is a [string]: its code units are the 8-bit
      characters of [ascii] (Latin-1).  Binary strings produced by [atob] and
      the data URLs produced by [FileReader.readAsDataURL] live in that range.
    - Raw file bytes and [Uint8Array]s are [list byte].
    - An optional property ([content?], [summary?], [isSummarizing?]) is an
      [option]: [None] is [undefined].
    - A call that can throw returns a [Result]; the handlers and effects are
      computations of a state-and-exception monad over the page, [M].
    - The browser is part of the state: [localStorage] (a [gmap]), the
      registry of object URLs (a [gmap] and a counter), the console and the
      network as a trace of events.  Whether a write fits the quota is the
      browser's decision, [withinQuota].
    - The page is one that the browser allows its storage: reading
      [window.localStorage] gives the store.  Where the browser denies it,
      that read throws a [SecurityError]; in the restore effect it stands
      before the [try], so such a page is outside what is described here.
    - Reading a dropped file ([file.text()], [FileReader]) succeeds.
    - [Math.random] is a supply of draws given to [handleFiles].
    - An [async] handler is cut at its [await]: [handleSummarize] runs up to
      the remote call, [handleSummarize_resume] runs when the call is
      answered.  After each handler the component renders again and the save
      effect runs, as its dependency [files] has changed. *)

From Stdlib Require Import NArith ZArith Ascii Lia ZifyNat.
From Stdlib.Strings Require Import Byte.
From stdpp Require Import base option list strings pretty gmap.

Local Open Scope N_scope.

(** ** Results of calls that may throw *)

Inductive Exn : Type :=
| InvalidCharacterError   (* atob on a string that is not base64 *)
| QuotaExceededError      (* localStorage.setItem over quota *)
| SyntaxError.            (* JSON.parse on a string that is not JSON *)

Inductive Result (A : Type) : Type :=
| Ok (a : A)
| Throw (e : Exn).

Arguments Ok {A} a.
Arguments Throw {A} e.

Definition Result_bind {A B} (r : Result A) (k : A -> Result B) : Result B :=
  match r with
  | Ok a => k a
  | Throw e => Throw e
  end.

(** ** The JavaScript string operations the program uses *)

Module JS.

(** [s.includes(sub)] *)
Fixpoint includes (s sub : string) : bool :=
  String.prefix sub s ||
  match s with
  | EmptyString => false
  | String _ s' => includes s' sub
  end.

(** [s.endsWith(suf)] *)
Definition endsWith (s suf : string) : bool :=
  let n := String.length s in
  let m := String.length suf in
  (m <=? n)%nat && String.eqb (String.substring (n - m) m s) suf.

(** [s.split(sep)] for a one-character separator: always at least one
    segment. *)
Fixpoint split (sep : ascii) (s : string) : list string :=
  match s with
  | EmptyString => [EmptyString]
  | String c s' =>
      if Ascii.eqb c sep then EmptyString :: split sep s'
      else match split sep s' with
           | seg :: rest => String c seg :: rest
           | [] => [String c EmptyString]
           end
  end.

(** [s.substr(start, len)] and [s.substring(0, stop)], for arguments within
    the natural numbers: what is available from [start], at most [len]. *)
Definition substr (start len : nat) (s : string) : string :=
  String.substring start len s.

Definition substring0 (stop : nat) (s : string) : string :=
  String.substring 0 stop s.

(** Truthiness of an optional string: [undefined] and the empty string are
    falsy. *)
Definition truthy (o : option string) : bool :=
  match o with
  | Some s => negb (String.eqb s EmptyString)
  | None => false
  end.

(** Truthiness of an optional boolean. *)
Definition truthy_bool (o : option bool) : bool :=
  match o with
  | Some b => b
  | None => false
  end.

(** [a || b] where [a] is an optional string and [b] a string. *)
Definition or_else (a : option string) (b : string) : string :=
  match a with
  | Some s => if String.eqb s EmptyString then b else s
  | None => b
  end.

(** [s.charCodeAt(i)] of each position, then [new Uint8Array(numbers)]:
    every number is stored modulo 256. *)
Definition charCodes (s : string) : list N :=
  map N_of_ascii (String.list_ascii_of_string s).

Definition Uint8Array_from (ns : list N) : list byte :=
  map (fun n => byte_of_ascii (ascii_of_N n)) ns.

(** The UTF-8 bytes of a string, as [new Blob([s])] stores them: one byte
    for a code unit below 128, two for the others of the Latin-1 range. *)
Definition utf8_unit (c : ascii) : list byte :=
  let n := N_of_ascii c in
  if n <? 128 then [byte_of_ascii c]
  else [byte_of_ascii (ascii_of_N (192 + n / 64));
        byte_of_ascii (ascii_of_N (128 + n mod 64))].

Definition utf8_encode (s : string) : list byte :=
  concat (map utf8_unit (String.list_ascii_of_string s)).

End JS.

(** ** Base64, as [readAsDataURL] writes it and [atob] reads it *)

Module Base64.

Definition alphabet : list ascii :=
  String.list_ascii_of_string
    "ABCDEFGHIJKLMNOPQRSTUVWXYZabcdefghijklmnopqrstuvwxyz0123456789+/".

Definition pad : ascii := "="%char.

(** The character of a 6-bit value. *)
Definition digit (n : N) : ascii := nth (N.to_nat n) alphabet "A"%char.

(** The 6-bit value of a character of the alphabet. *)
Definition value (c : ascii) : option N :=
  let n := N_of_ascii c in
  if (65 <=? n) && (n <=? 90) then Some (n - 65)
  else if (97 <=? n) && (n <=? 122) then Some (n - 97 + 26)
  else if (48 <=? n) && (n <=? 57) then Some (n - 48 + 52)
  else if n =? 43 then Some 62
  else if n =? 47 then Some 63
  else None.

(** Three bytes make four characters. *)
Definition quantum (a b c : N) : N := a * 65536 + b * 256 + c.

Fixpoint encode (bs : list byte) : list ascii :=
  match bs with
  | [] => []
  | [a] =>
      let n := quantum (Byte.to_N a) 0 0 in
      [digit (n / 262144); digit ((n / 4096) mod 64); pad; pad]
  | [a; b] =>
      let n := quantum (Byte.to_N a) (Byte.to_N b) 0 in
      [digit (n / 262144); digit ((n / 4096) mod 64);
       digit ((n / 64) mod 64); pad]
  | a :: b :: c :: rest =>
      let n := quantum (Byte.to_N a) (Byte.to_N b) (Byte.to_N c) in
      [digit (n / 262144); digit ((n / 4096) mod 64);
       digit ((n / 64) mod 64); digit (n mod 64)] ++ encode rest
  end.

(** The 6-bit values that [encode] writes as characters, and the number
    of pad characters after them. *)
Fixpoint sextets (bs : list byte) : list N :=
  match bs with
  | [] => []
  | [a] =>
      let n := quantum (Byte.to_N a) 0 0 in
      [n / 262144; (n / 4096) mod 64]
  | [a; b] =>
      let n := quantum (Byte.to_N a) (Byte.to_N b) 0 in
      [n / 262144; (n / 4096) mod 64; (n / 64) mod 64]
  | a :: b :: c :: rest =>
      let n := quantum (Byte.to_N a) (Byte.to_N b) (Byte.to_N c) in
      [n / 262144; (n / 4096) mod 64; (n / 64) mod 64; n mod 64]
      ++ sextets rest
  end.

Fixpoint padding (bs : list byte) : nat :=
  match bs with
  | [] => 0
  | [_] => 2
  | [_; _] => 1
  | _ :: _ :: _ :: rest => padding rest
  end.

(** The forgiving-base64 decode of the HTML standard, which [atob] runs. *)

Definition is_whitespace (c : ascii) : bool :=
  let n := N_of_ascii c in
  (n =? 9) || (n =? 10) || (n =? 12) || (n =? 13) || (n =? 32).

Definition strip_whitespace (d : list ascii) : list ascii :=
  List.filter (fun c => negb (is_whitespace c)) d.

(** When the length is a multiple of four, one or two trailing [=] go. *)
Definition strip_padding (d : list ascii) : list ascii :=
  if (length d mod 4 =? 0)%nat then
    match rev d with
    | c1 :: c2 :: r =>
        if Ascii.eqb c1 pad then
          if Ascii.eqb c2 pad then rev r else rev (c2 :: r)
        else d
    | [c1] => if Ascii.eqb c1 pad then [] else d
    | [] => d
    end
  else d.

Fixpoint values (d : list ascii) : option (list N) :=
  match d with
  | [] => Some []
  | c :: d' =>
      match value c, values d' with
      | Some v, Some vs => Some (v :: vs)
      | _, _ => None
      end
  end.

(** Four values fill the 24-bit buffer and give three bytes; a rest of
    three values gives two bytes, of two values one byte. *)
Fixpoint decode_values (vs : list N) : list N :=
  match vs with
  | s0 :: s1 :: s2 :: s3 :: rest =>
      let n := s0 * 262144 + s1 * 4096 + s2 * 64 + s3 in
      [n / 65536; (n / 256) mod 256; n mod 256] ++ decode_values rest
  | [s0; s1; s2] =>
      let n := (s0 * 4096 + s1 * 64 + s2) / 4 in
      [n / 256; n mod 256]
  | [s0; s1] =>
      let n := (s0 * 64 + s1) / 16 in
      [n]
  | _ => []
  end.

Definition decode (d : list ascii) : Result (list N) :=
  let d1 := strip_padding (strip_whitespace d) in
  if (length d1 mod 4 =? 1)%nat then Throw InvalidCharacterError
  else match values d1 with
       | Some vs => Ok (decode_values vs)
       | None => Throw InvalidCharacterError
       end.

End Base64.

(** [atob(s)]: the decoded bytes as a binary string. *)
Definition atob (s : string) : Result string :=
  Result_bind (Base64.decode (String.list_ascii_of_string s)) (fun ns =>
  Ok (String.string_of_list_ascii (map ascii_of_N ns))).

(** ** The data model ([types]) *)

(** [PreviewFile].  [url] is declared as a string; a record read back from
    the session store has none until the restore effect creates one, and the
    record written to the store has it removed, so it is optional here. *)
Record PreviewFile : Type := {
  id : string;
  name : string;
  type : string;
  size : N;
  url : option string;
  content : option string;
  summary : option string;
  isSummarizing : option bool
}.

(** A [File] of the DOM, by what the program reads of it: its name, its
    media type, its bytes ([size] is their number) and the string that
    [file.text()] resolves to (the UTF-8 decoding of the bytes). *)
Record File : Type := {
  file_name : string;
  file_type : string;
  file_bytes : list byte;
  file_text : string
}.

Definition file_size (file : File) : N := N.of_nat (length (file_bytes file)).

Record Blob : Type := {
  blob_bytes : list byte;
  blob_type : string
}.

(** The [type] that [new Blob(parts, { type })] keeps of the one it is
    given: the empty string when the given type has a code unit outside
    U+0020..U+007E, and the given type in ASCII lower case otherwise. *)
Definition printable (c : ascii) : bool :=
  let n := N_of_ascii c in (32 <=? n) && (n <=? 126).

Definition lowercase (c : ascii) : ascii :=
  let n := N_of_ascii c in
  if (65 <=? n) && (n <=? 90) then ascii_of_N (n + 32) else c.

Definition normalizeType (ty : string) : string :=
  let units := String.list_ascii_of_string ty in
  if forallb printable units
  then String.string_of_list_ascii (map lowercase units)
  else EmptyString.

(** [new Blob([s], { type })] and [new Blob([byteArray], { type })] *)
Definition Blob_of_string (s : string) (ty : string) : Blob :=
  {| blob_bytes := JS.utf8_encode s; blob_type := normalizeType ty |}.

Definition Blob_of_bytes (bs : list byte) (ty : string) : Blob :=
  {| blob_bytes := bs; blob_type := normalizeType ty |}.

(** A [File] is a [Blob] as it is: [URL.createObjectURL(file)] registers
    the file itself, under the type the file has. *)
Definition Blob_of_File (file : File) : Blob :=
  {| blob_bytes := file_bytes file; blob_type := file_type file |}.

(** The text of a [localStorage] item.  The program writes an item only with
    [JSON.stringify] of a record array and reads it only with [JSON.parse],
    so a text is kept as what [JSON.parse] makes of it: the array it denotes,
    or a [SyntaxError].  The empty text is apart, being falsy. *)
Inductive Text : Type :=
| TextOfJSON (fs : list PreviewFile)
| TextEmpty
| TextNotJSON.

(** [JSON.stringify] leaves out the properties that are [undefined], which is
    what [None] stands for. *)
Definition JSON_stringify (fs : list PreviewFile) : Text := TextOfJSON fs.

Definition JSON_parse (t : Text) : Result (list PreviewFile) :=
  match t with
  | TextOfJSON fs => Ok fs
  | TextEmpty => Throw SyntaxError
  | TextNotJSON => Throw SyntaxError
  end.

(** What the remote model does with a request: the call rejects, or resolves
    to a response whose [text] may be missing or empty. *)
Inductive RemoteOutcome : Type :=
| Rejects
| Responds (text : option string).

(** What the program does to its surroundings, in the order it does it. *)
Inductive Event : Type :=
| EvSetItem (key : string) (value : Text) (stored : bool)
| EvGenerateContent (fileName : string) (contentPart : string)
| EvConsoleError (msg : string)
| EvConsoleWarn (msg : string).

(** ** The running page *)

(** The component's state ([files], [isRestoring]), the browser around it
    (the origin's [localStorage] with the quota as the browser applies it,
    the registry of object URLs) and the remote calls not answered yet, each
    under the id of the document it was made for. *)
Record World : Type := {
  files : list PreviewFile;
  isRestoring : bool;
  localStorage : gmap string Text;
  withinQuota : string -> Text -> bool;
  objectURLs : gmap string Blob;
  nextURL : N;
  pending : list string;
  trace : list Event
}.

Definition with_files (fs : list PreviewFile) (w : World) : World :=
  {| files := fs; isRestoring := isRestoring w;
     localStorage := localStorage w; withinQuota := withinQuota w;
     objectURLs := objectURLs w; nextURL := nextURL w;
     pending := pending w; trace := trace w |}.

Definition with_isRestoring (b : bool) (w : World) : World :=
  {| files := files w; isRestoring := b;
     localStorage := localStorage w; withinQuota := withinQuota w;
     objectURLs := objectURLs w; nextURL := nextURL w;
     pending := pending w; trace := trace w |}.

Definition with_localStorage (st : gmap string Text) (w : World) : World :=
  {| files := files w; isRestoring := isRestoring w;
     localStorage := st; withinQuota := withinQuota w;
     objectURLs := objectURLs w; nextURL := nextURL w;
     pending := pending w; trace := trace w |}.

Definition with_objectURLs (us : gmap string Blob) (n : N) (w : World) : World :=
  {| files := files w; isRestoring := isRestoring w;
     localStorage := localStorage w; withinQuota := withinQuota w;
     objectURLs := us; nextURL := n;
     pending := pending w; trace := trace w |}.

Definition with_pending (p : list string) (w : World) : World :=
  {| files := files w; isRestoring := isRestoring w;
     localStorage := localStorage w; withinQuota := withinQuota w;
     objectURLs := objectURLs w; nextURL := nextURL w;
     pending := p; trace := trace w |}.

Definition emit (e : Event) (w : World) : World :=
  {| files := files w; isRestoring := isRestoring w;
     localStorage := localStorage w; withinQuota := withinQuota w;
     objectURLs := objectURLs w; nextURL := nextURL w;
     pending := pending w; trace := trace w ++ [e] |}.

(** Computations of the page: they change the world and return or throw; what
    was done before a throw stays done. *)
Definition M (A : Type) : Type := World -> Result A * World.

Definition ret {A} (a : A) : M A := fun w => (Ok a, w).

Definition bind {A B} (m : M A) (k : A -> M B) : M B :=
  fun w =>
    match m w with
    | (Ok a, w') => k a w'
    | (Throw e, w') => (Throw e, w')
    end.

Definition lift {A} (r : Result A) : M A := fun w => (r, w).

(** [try { body } catch (e) { handler }] *)
Definition try_catch {A} (body : M A) (handler : Exn -> M A) : M A :=
  fun w =>
    match body w with
    | (Ok a, w') => (Ok a, w')
    | (Throw e, w') => handler e w'
    end.

Notation "'let!' x ':=' m 'in' k" := (bind m (fun x => k))
  (at level 10, x name, m at level 100, k at level 200).
Notation "'do!' m 'in' k" := (bind m (fun _ => k))
  (at level 10, m at level 100, k at level 200).

Definition modify (f : World -> World) : M unit := fun w => (Ok tt, f w).

Definition gets {A} (f : World -> A) : M A := fun w => (Ok (f w), w).

(** [array.map(callback)] where the callback acts on the world and may
    throw: the first exception leaves the loop. *)
Fixpoint mapM {A B} (callback : A -> M B) (array : list A) : M (list B) :=
  match array with
  | [] => ret []
  | item :: others =>
      let! mapped := callback item in
      let! rest := mapM callback others in
      ret (mapped :: rest)
  end.

(** *** The browser's interfaces *)

(** [localStorage.getItem(key)], on a page that is allowed its storage:
    the item, or [null]. *)
Definition getItem (key : string) : M (option Text) :=
  gets (fun w => localStorage w !! key).

(** [setItem] stores the value, or throws and stores nothing. *)
Definition setItem (key : string) (value : Text) : M unit :=
  fun w =>
    if withinQuota w key value then
      (Ok tt, emit (EvSetItem key value true)
                (with_localStorage (<[key := value]> (localStorage w)) w))
    else
      (Throw QuotaExceededError, emit (EvSetItem key value false) w).

Definition createObjectURL (b : Blob) : M string :=
  fun w =>
    let u := "blob:" +:+ pretty (nextURL w) in
    (Ok u, with_objectURLs (<[u := b]> (objectURLs w)) (nextURL w + 1) w).

Definition revokeObjectURL (u : option string) : M unit :=
  modify (fun w =>
    match u with
    | Some u => with_objectURLs (delete u (objectURLs w)) (nextURL w) w
    | None => w
    end).

Definition console_error (msg : string) : M unit :=
  modify (emit (EvConsoleError msg)).

Definition console_warn (msg : string) : M unit :=
  modify (emit (EvConsoleWarn msg)).

(** [setFiles(prev => f(prev))] and [setIsRestoring(b)] *)
Definition setFiles (f : list PreviewFile -> list PreviewFile) : M unit :=
  modify (fun w => with_files (f (files w)) w).

Definition setIsRestoring (b : bool) : M unit :=
  modify (with_isRestoring b).

(** [file.type || 'application/octet-stream'] *)
Definition mediaType (file : File) : string :=
  JS.or_else (Some (file_type file)) "application/octet-stream".

(** [FileReader.readAsDataURL]: the media type is the file's, and the generic
    one when the file has none. *)
Definition readAsDataURL (file : File) : string :=
  "data:" +:+ mediaType file
  +:+ ";base64,"
  +:+ String.string_of_list_ascii (Base64.encode (file_bytes file)).

(** A Latin-1 letter outside ASCII, by its code. *)
Definition latin1 (n : N) : string := String (ascii_of_N n) EmptyString.

(** ** [App.tsx] *)

Definition STORAGE_KEY : string := "hubdoc_session_files".

Definition set_url (u : option string) (f : PreviewFile) : PreviewFile :=
  {| id := id f; name := name f; type := type f; size := size f;
     url := u;
     content := content f; summary := summary f;
     isSummarizing := isSummarizing f |}.

Definition set_isSummarizing (b : option bool) (f : PreviewFile) : PreviewFile :=
  {| id := id f; name := name f; type := type f; size := size f;
     url := url f; content := content f; summary := summary f;
     isSummarizing := b |}.

Definition set_summary (s : option string) (f : PreviewFile) : PreviewFile :=
  {| id := id f; name := name f; type := type f; size := size f;
     url := url f; content := content f; summary := s;
     isSummarizing := isSummarizing f |}.

(** The value of a property that tested truthy. *)
Definition the (o : option string) : string := default EmptyString o.

(** *** The restore effect (on mount) *)

(** The callback of [parsedFiles.map]. *)
Definition restoreFile (file : PreviewFile) : M PreviewFile :=
  if JS.truthy (content file)
     && negb (JS.includes (type file) "pdf")
     && negb (JS.endsWith (name file) ".pptx")
  then
    (* a text-based file, the content is already there *)
    let blob := Blob_of_string (the (content file)) (type file) in
    let! u := createObjectURL blob in
    ret (set_url (Some u) file)
  else if JS.truthy (content file) then
    (* a binary file stored as Base64 in the content field *)
    let c := the (content file) in
    let! byteCharacters := lift (atob (JS.or_else (JS.split "," c !! 1%nat) c)) in
    let byteNumbers := JS.charCodes byteCharacters in
    let byteArray := JS.Uint8Array_from byteNumbers in
    let blob := Blob_of_bytes byteArray (type file) in
    let! u := createObjectURL blob in
    ret (set_url (Some u) file)
  else ret file.

(** [if (savedData)]: a missing item and the empty text are falsy. *)
Definition text_truthy (o : option Text) : bool :=
  match o with
  | Some TextEmpty => false
  | Some _ => true
  | None => false
  end.

Definition restoreEffect : M unit :=
  let! savedData := getItem STORAGE_KEY in
  do! (if text_truthy savedData then
         try_catch
           (let! parsedFiles := lift (JSON_parse (default TextEmpty savedData)) in
            let! restoredFiles := mapM restoreFile parsedFiles in
            setFiles (fun _ => restoredFiles))
           (fun e => console_error "Failed to restore session")
       else ret tt) in
  setIsRestoring false.

(** *** The save effect (dependencies: [files], [isRestoring]) *)

(** The effect as a closure over the values of one render. *)
Definition saveEffect_of (files_ : list PreviewFile) (isRestoring_ : bool) : M unit :=
  if isRestoring_ then ret tt
  else
    let filesToSave := map (set_url None) files_ in
    try_catch
      (setItem STORAGE_KEY (JSON_stringify filesToSave))
      (fun e => console_warn "Storage limit reached. Some files might not be saved.").

(** The effect after a render of the current state. *)
Definition saveEffect : M unit :=
  fun w => saveEffect_of (files w) (isRestoring w) w.

(** Mounting the component.  The first render has the initial state; both
    effects run after it, the save effect still closed over that state.  The
    restore effect's updates give a second render, where [isRestoring] has
    changed, so the save effect runs again, over the new state. *)
Definition mount : M unit :=
  fun w =>
    (do! restoreEffect in
     do! saveEffect_of (files w) (isRestoring w) in
     saveEffect) w.

(** A page load: the component state is the initial one, the object URLs of
    the page before are gone and so are its unanswered calls; [localStorage]
    stays. *)
Definition pageLoad (w : World) : World :=
  {| files := []; isRestoring := true;
     localStorage := localStorage w; withinQuota := withinQuota w;
     objectURLs := ∅; nextURL := 0;
     pending := []; trace := [] |}.

(** *** Ingestion *)

Definition fileToBase64 (file : File) : string := readAsDataURL file.

Definition isTextFile (file : File) : bool :=
  JS.endsWith (file_name file) ".md"
  || JS.endsWith (file_name file) ".txt"
  || JS.endsWith (file_name file) ".xml"
  || JS.includes (file_type file) "text"
  || JS.includes (file_type file) "markdown".

(** The callback of [fileList.map]; [rnd] is [Math.random().toString(36)]. *)
Definition processFile (rnd : string) (file : File) : M PreviewFile :=
  let id_ := JS.substr 2 9 rnd in
  let! url_ := createObjectURL (Blob_of_File file) in
  let content_ :=
    if isTextFile file then file_text file else fileToBase64 file in
  ret {| id := id_;
         name := file_name file;
         type := mediaType file;
         size := file_size file;
         url := Some url_;
         content := Some content_;
         summary := None;
         isSummarizing := None |}.

(** [random i] is the [i]-th draw of the batch. *)
Fixpoint processFiles (random : nat -> string) (i : nat) (fileList : list File)
  : M (list PreviewFile) :=
  match fileList with
  | [] => ret []
  | file :: rest =>
      let! p := processFile (random i) file in
      let! ps := processFiles random (S i) rest in
      ret (p :: ps)
  end.

Definition handleFiles (random : nat -> string) (newFiles : option (list File)) : M unit :=
  match newFiles with
  | None => ret tt
  | Some fileList =>
      let! processedFiles := processFiles random 0 fileList in
      do! setFiles (fun prev => prev ++ processedFiles) in
      saveEffect
  end.

(** *** Summarization ([handleSummarize] and [summarizeDocument]) *)

Definition textToSummarize (file : PreviewFile) : string :=
  if JS.includes (type file) "pdf" then "Documento PDF: " +:+ name file
  else JS.or_else (content file) (name file).

(** [summarizeDocument] up to its [await]: the request goes out, with the
    file name and the first 5000 characters of the content in its prompt. *)
Definition summarizeDocument_request (fileName content_ : string) : M unit :=
  modify (emit (EvGenerateContent fileName (JS.substring0 5000 content_))).

Definition NO_SUMMARY : string :=
  "N" +:+ latin1 227 +:+ "o foi poss" +:+ latin1 237 +:+ "vel gerar um resumo.".

Definition SUMMARY_ERROR : string := "Erro ao processar o resumo com a IA.".

(** [summarizeDocument] from its [await] on. *)
Definition summarizeDocument_response (o : RemoteOutcome) : M string :=
  match o with
  | Responds text => ret (JS.or_else text NO_SUMMARY)
  | Rejects =>
      do! console_error "Error summarizing document:" in
      ret SUMMARY_ERROR
  end.

(** [handleSummarize] up to its [await]. *)
Definition handleSummarize (file : PreviewFile) : M unit :=
  do! setFiles (map (fun f =>
        if String.eqb (id f) (id file) then set_isSummarizing (Some true) f else f)) in
  do! summarizeDocument_request (name file) (textToSummarize file) in
  do! modify (fun w => with_pending (pending w ++ [id file]) w) in
  saveEffect.

(** The rest of [handleSummarize], when the [k]-th unanswered call is
    answered. *)
Definition handleSummarize_resume (k : nat) (o : RemoteOutcome) : M unit :=
  let! call := gets (fun w => pending w !! k) in
  match call with
  | None => ret tt
  | Some file_id =>
      do! modify (fun w => with_pending (delete k (pending w)) w) in
      let! summary_ := summarizeDocument_response o in
      do! setFiles (map (fun f =>
            if String.eqb (id f) file_id
            then set_isSummarizing (Some false) (set_summary (Some summary_) f)
            else f)) in
      saveEffect
  end.

(** *** Removal *)

Definition removeFile (id_ : string) : M unit :=
  let! prev := gets files in
  let removed := List.find (fun f => String.eqb (id f) id_) prev in
  do! (match removed with
       | Some r => revokeObjectURL (url r)
       | None => ret tt
       end) in
  do! setFiles (List.filter (fun f => negb (String.eqb (id f) id_))) in
  saveEffect.

(** ** [components/PreviewCard] *)

Inductive ViewMode : Type := ViewPreview | ViewSummary.

Inductive SummaryBody : Type :=
| Spinner
| SummaryText (text : string).

(** What [renderContent] returns. *)
Inductive Rendering : Type :=
| SummaryPanel (body : SummaryBody)
| PdfFrame (src : string) (title : string)
| MarkdownBlock (source : string)
| CodeBlock (text : option string)
| PptxNotice (download : option string)
| Unavailable.

Definition NO_SUMMARY_YET : string :=
  "Nenhum resumo dispon" +:+ latin1 237 +:+ "vel. Clique no bot" +:+ latin1 227
  +:+ "o de IA para gerar.".

(** A template literal prints a missing value as [undefined]. *)
Definition url_text (u : option string) : string := default "undefined" u.

Definition renderContent (file : PreviewFile) (viewMode : ViewMode) : Rendering :=
  match viewMode with
  | ViewSummary =>
      SummaryPanel
        (if JS.truthy_bool (isSummarizing file) then Spinner
         else SummaryText (JS.or_else (summary file) NO_SUMMARY_YET))
  | ViewPreview =>
      if JS.includes (type file) "pdf" then
        PdfFrame (url_text (url file) +:+ "#toolbar=0") (name file)
      else if JS.endsWith (name file) ".md" || JS.includes (type file) "markdown" then
        MarkdownBlock (JS.or_else (content file) EmptyString)
      else if JS.includes (type file) "xml" || JS.includes (type file) "text" then
        CodeBlock (content file)
      else if JS.endsWith (name file) ".pptx" then
        PptxNotice (url file)
      else Unavailable
  end.

(** The buttons of the card's header. *)
Inductive Control : Type := ToggleView | GerarIA | RemoveDoc.

Definition Control_eqb (a b : Control) : bool :=
  match a, b with
  | ToggleView, ToggleView | GerarIA, GerarIA | RemoveDoc, RemoveDoc => true
  | _, _ => false
  end.

Definition headerControls (file : PreviewFile) : list Control :=
  [ToggleView]
  ++ (if negb (JS.truthy (summary file)) && negb (JS.truthy_bool (isSummarizing file))
      then [GerarIA] else [])
  ++ [RemoveDoc].

(** A button as the card renders it: which one it is, and what its
    [onClick] runs. *)
Record Button : Type := {
  button_control : Control;
  button_onClick : M unit
}.

(** The header of [PreviewCard] with the props the card is given: the view
    toggle (it changes the card's own view mode only), the summarize button
    under its condition, with [onSummarize(file)] as its [onClick], and the
    remove button, with [onRemove(file.id)]. *)
Definition PreviewCard_header (file : PreviewFile)
    (onRemove : string -> M unit) (onSummarize : PreviewFile -> M unit)
  : list Button :=
  [{| button_control := ToggleView; button_onClick := ret tt |}]
  ++ (if negb (JS.truthy (summary file)) && negb (JS.truthy_bool (isSummarizing file))
      then [{| button_control := GerarIA; button_onClick := onSummarize file |}]
      else [])
  ++ [{| button_control := RemoveDoc; button_onClick := onRemove (id file) |}].

(** The grid of previews of [App]: a spinner while the session is being
    restored; after that one [PreviewCard] for each record of [files], in
    their order, with [onRemove={removeFile}] and
    [onSummarize={handleSummarize}].  [handleSummarize] is passed nowhere
    else. *)
Definition previewGrid (w : World) : list (list Button) :=
  if isRestoring w then []
  else map (fun file => PreviewCard_header file removeFile handleSummarize)
         (files w).

(** A click on the button [c] of the [i]-th card of the grid: the [onClick]
    of that button runs, as the page shows it at the time of the click; a
    card or a button that the page does not show takes no click.  The state
    updates of a click handler are rendered before the next click is
    handled, so the next click meets the grid of the new state. *)
Definition click (i : nat) (c : Control) : M unit :=
  fun w =>
    match previewGrid w !! i with
    | Some header =>
        match List.find (fun b => Control_eqb (button_control b) c) header with
        | Some b => button_onClick b w
        | None => (Ok tt, w)
        end
    | None => (Ok tt, w)
    end.

(** ** What the trace shows *)

Definition is_setItem (e : Event) : bool :=
  match e with EvSetItem _ _ _ => true | _ => false end.

Definition is_generateContent (e : Event) : bool :=
  match e with EvGenerateContent _ _ => true | _ => false end.

Definition setItem_calls (w : World) : list Event := List.filter is_setItem (trace w).

Definition remote_calls (w : World) : list Event :=
  List.filter is_generateContent (trace w).

(** ** Reading a session back: which records decode *)

(** The record takes the second branch of [restoreFile]. *)
Definition storedAsBase64 (f : PreviewFile) : bool :=
  JS.truthy (content f)
  && negb (negb (JS.includes (type f) "pdf")
           && negb (JS.endsWith (name f) ".pptx")).

(** What that branch hands to [atob]. *)
Definition encodedPayload (f : PreviewFile) : string :=
  let c := the (content f) in JS.or_else (JS.split "," c !! 1%nat) c.

(** The record's payload is one that [atob] refuses. *)
Definition malformed (f : PreviewFile) : bool :=
  storedAsBase64 f
  && match atob (encodedPayload f) with
     | Ok _ => false
     | Throw _ => true
     end.

(** Two records that agree on every field other than [url]. *)
Definition same_but_url (f f' : PreviewFile) : Prop :=
  id f' = id f /\ name f' = name f /\ type f' = type f /\ size f' = size f
  /\ content f' = content f /\ summary f' = summary f
  /\ isSummarizing f' = isSummarizing f.

(** ** Ingestion: the record made of a file *)

(** What ingestion copies from a file into its record. *)
Definition from_file (file : File) (rec : PreviewFile) : Prop :=
  name rec = file_name file
  /\ type rec = mediaType file
  /\ size rec = file_size file
  /\ content rec
     = Some (if isTextFile file then file_text file else readAsDataURL file)
  /\ summary rec = None
  /\ isSummarizing rec = None.

(** The id made of the [i]-th draw. *)
Definition drawn_id (random : nat -> string) (i : nat) : string :=
  JS.substr 2 9 (random i).

(** ** Writes to the session store *)


(** ** Pages and documents used in the examples *)

(** A freshly loaded page over a given [localStorage], with a browser that
    accepts every write. *)
Definition freshPage (st : gmap string Text) : World :=
  {| files := []; isRestoring := true;
     localStorage := st; withinQuota := fun _ _ => true;
     objectURLs := ∅; nextURL := 0;
     pending := []; trace := [] |}.

(** The same over a store that is full: every write is refused. *)
Definition fullPage (st : gmap string Text) : World :=
  {| files := []; isRestoring := true;
     localStorage := st; withinQuota := fun _ _ => false;
     objectURLs := ∅; nextURL := 0;
     pending := []; trace := [] |}.

Definition session (fs : list PreviewFile) : gmap string Text :=
  {[ STORAGE_KEY := TextOfJSON fs ]}.

Definition sample_pdf : File :=
  {| file_name := "a.pdf"; file_type := "application/pdf";
     file_bytes := [x25; x50; x44; x46]%byte; file_text := "%PDF" |}.

Definition sample_png : File :=
  {| file_name := "a.png"; file_type := "image/png";
     file_bytes := [x89; x50]%byte; file_text := "?P" |}.

Definition empty_pdf : File :=
  {| file_name := "empty.pdf"; file_type := "application/pdf";
     file_bytes := []; file_text := EmptyString |}.

Definition comma_pdf : File :=
  {| file_name := "a.pdf"; file_type := "application/pdf,v=1";
     file_bytes := [x25; x50; x44; x46]%byte; file_text := "%PDF" |}.

Definition sample_pptx : File :=
  {| file_name := "slide.pptx";
     file_type := "application/vnd.openxmlformats-officedocument."
                  +:+ "presentationml.presentation";
     file_bytes := [x50; x4b; x03; x04]%byte; file_text := "PK" |}.

Definition sample_md : File :=
  {| file_name := "report.md"; file_type := "text/markdown";
     file_bytes := [x23; x20; x54]%byte; file_text := "# T" |}.

(** A generator that draws the same number every time. *)
Definition same_draw (i : nat) : string := "0.4fzyo82mvyr".

Definition doc_md : PreviewFile :=
  {| id := "a1"; name := "notes.md"; type := "text/markdown"; size := 3;
     url := None; content := Some "# T"; summary := None;
     isSummarizing := None |}.

(** A PDF record whose payload is not base64. *)
Definition doc_bad_pdf : PreviewFile :=
  {| id := "b2"; name := "scan.pdf"; type := "application/pdf"; size := 4;
     url := None; content := Some "data:application/pdf;base64,%%%";
     summary := None; isSummarizing := None |}.

Definition doc_pptx : PreviewFile :=
  {| id := "c3"; name := "slide.pptx";
     type := "application/octet-stream"; size := 3;
     url := None; content := Some "data:application/octet-stream;base64,UEsD";
     summary := None; isSummarizing := None |}.

(** The same document while its summary is awaited. *)
Definition doc_inflight : PreviewFile :=
  {| id := "a1"; name := "notes.md"; type := "text/markdown"; size := 3;
     url := Some "blob:0"; content := Some "# T"; summary := None;
     isSummarizing := Some true |}.

(** The same document before any summary was asked for. *)
Definition doc_idle : PreviewFile :=
  {| id := "a1"; name := "notes.md"; type := "text/markdown"; size := 3;
     url := Some "blob:0"; content := Some "# T"; summary := None;
     isSummarizing := None |}.

(** A page that has finished restoring and shows one document. *)
Definition pageWith (f : PreviewFile) : World :=
  with_isRestoring false (with_files [f] (freshPage (session [set_url None f]))).

(** The page while the summary of its one document is awaited. *)
Definition inflightPage : World :=
  with_pending ["a1"] (pageWith doc_inflight).

(** A PDF record whose content is Base64 with no data URL around it. *)
Definition bare_pdf : PreviewFile :=
  {| id := "d4"; name := "bare.pdf"; type := "application/pdf"; size := 4;
     url := None; content := Some "JVBERg=="; summary := None;
     isSummarizing := None |}.

(** ** [components/PreviewCard]: the icon of the header *)

(** [getFileIcon(type)]; the function also reads the name of the card's
    file. *)
Definition getFileIcon (file : PreviewFile) (type_ : string) : string :=
  if JS.includes type_ "pdf" then "fa-file-pdf text-red-500"
  else if JS.includes type_ "markdown" || JS.endsWith (name file) ".md"
  then "fa-file-code text-blue-500"
  else if JS.includes type_ "xml" then "fa-file-code text-orange-500"
  else if JS.includes type_ "presentation" || JS.endsWith (name file) ".pptx"
  then "fa-file-powerpoint text-orange-600"
  else "fa-file-lines text-slate-500".

(** ** Relations between records and between pages *)

(** Two records that agree on everything ingestion wrote: all fields but
    [summary] and [isSummarizing]. *)
Definition same_document (f f' : PreviewFile) : Prop :=
  id f' = id f /\ name f' = name f /\ type f' = type f /\ size f' = size f
  /\ url f' = url f /\ content f' = content f.


(** The record has a [url] that resolves to a blob of the given bytes,
    whose type is the record's as [new Blob] keeps it ([normalizeType]). *)
Definition resolves_to (w : World) (f : PreviewFile) (bs : list byte) : Prop :=
  exists u, url f = Some u
            /\ objectURLs w !! u = Some (Blob_of_bytes bs (type f)).

(** The second record is the first one, untouched when its id is not the
    given one, and with no more than its summary and its flag changed when
    it is. *)
Definition touched_only (file_id : string) (f f' : PreviewFile) : Prop :=
  same_document f f' /\ (String.eqb (id f) file_id = false -> f' = f).

(** The second page is the first one after some object URLs were issued:
    the counter has advanced, the URLs issued lie between its two values, the
    other URLs resolve as before, and nothing else has changed. *)
Definition issues_urls (w w' : World) : Prop :=
  w' = with_objectURLs (objectURLs w') (nextURL w') w
  /\ nextURL w <= nextURL w'
  /\ (forall u,
        (forall m, nextURL w <= m < nextURL w' -> u <> "blob:" +:+ pretty m) ->
        objectURLs w' !! u = objectURLs w !! u).

(** The bytes of the blob that [restoreFile] makes for a record with
    content: the decoded payload in the Base64 branch, the UTF-8 bytes of the
    content in the text branch. *)
Definition restoredBytes (f : PreviewFile) : list byte :=
  if storedAsBase64 f then
    match atob (encodedPayload f) with
    | Ok byteCharacters => JS.Uint8Array_from (JS.charCodes byteCharacters)
    | Throw _ => []
    end
  else JS.utf8_encode (the (content f)).

(** What the restore makes of a stored record: the same record with a
    [url] that resolves to its bytes, or the record itself when it has no
    content. *)
Definition restored_as (w' : World) (f f' : PreviewFile) : Prop :=
  same_but_url f f'
  /\ (JS.truthy (content f) = true -> resolves_to w' f' (restoredBytes f))
  /\ (JS.truthy (content f) = false -> f' = f).



(** ** More pages for the examples *)

(** A page that awaits an answer for a document it no longer holds. *)
Definition stalePage : World := with_pending ["zz"] (pageWith doc_idle).

(** A second document under the id of the first. *)
Definition doc_twin : PreviewFile :=
  {| id := "a1"; name := "other.md"; type := "text/markdown"; size := 1;
     url := Some "blob:1"; content := Some "x"; summary := None;
     isSummarizing := None |}.

Definition twinsPage : World :=
  with_objectURLs
    (<["blob:1" := Blob_of_string "x" "text/markdown"]>
       (<["blob:0" := Blob_of_string "# T" "text/markdown"]> ∅)) 2
    (with_isRestoring false (with_files [doc_idle; doc_twin] (freshPage ∅))).

(** * Properties *)

(** ** Base64: [atob] undoes [encode] *)

Section Base64Facts.

Import Base64.

Lemma list_ind3 {A} (P : list A -> Prop) :
  P [] ->
  (forall a, P [a]) ->
  (forall a b, P [a; b]) ->
  (forall a b c l, P l -> P (a :: b :: c :: l)) ->
  forall l, P l.
Proof.
  intros H0 H1 H2 H3.
  assert (H : forall l, P l /\ (forall a, P (a :: l)) /\ (forall a b, P (a :: b :: l))).
  { induction l as [|x l (IH0 & IH1 & IH2)]; [now auto|].
    split; [apply IH1|]. split; [intros a; apply IH2|].
    intros a b. now apply H3. }
  intros l. apply H.
Qed.

Lemma alphabet_nth (P : ascii -> Prop) :
  Forall P alphabet -> forall n, P (digit n).
Proof.
  intros HP n. unfold digit.
  destruct (Nat.lt_ge_cases (N.to_nat n) (length alphabet)) as [Hlt|Hge].
  - rewrite Forall_forall in HP. apply HP.
    apply list_elem_of_In. now apply nth_In.
  - rewrite nth_overflow by exact Hge.
    rewrite Forall_forall in HP. apply HP. vm_compute. now left.
Qed.

Lemma digit_not_whitespace n : is_whitespace (digit n) = false.
Proof.
  apply (alphabet_nth (fun c => is_whitespace c = false)).
  apply Forall_forall. intros c Hc. apply list_elem_of_In in Hc.
  vm_compute in Hc. intuition (subst; reflexivity).
Qed.

Lemma digit_not_pad n : Ascii.eqb (digit n) pad = false.
Proof.
  apply (alphabet_nth (fun c => Ascii.eqb c pad = false)).
  apply Forall_forall. intros c Hc. apply list_elem_of_In in Hc.
  vm_compute in Hc. intuition (subst; reflexivity).
Qed.

Lemma digit_not_comma n : Ascii.eqb (digit n) ","%char = false.
Proof.
  apply (alphabet_nth (fun c => Ascii.eqb c ","%char = false)).
  apply Forall_forall. intros c Hc. apply list_elem_of_In in Hc.
  vm_compute in Hc. intuition (subst; reflexivity).
Qed.

Lemma value_digit_nat (i : nat) :
  (i < 64)%nat -> value (nth i alphabet "A"%char) = Some (N.of_nat i).
Proof.
  intros Hi.
  do 64 (destruct i as [|i]; [reflexivity|]).
  lia.
Qed.

Lemma value_digit n : n < 64 -> value (digit n) = Some n.
Proof.
  intros Hn. unfold digit. rewrite value_digit_nat by lia.
  now rewrite N2Nat.id.
Qed.

Lemma values_digits vs :
  Forall (fun v => v < 64) vs -> values (map digit vs) = Some vs.
Proof.
  induction 1 as [|v vs Hv _ IH]; simpl; [reflexivity|].
  now rewrite value_digit, IH.
Qed.

Local Ltac Zify.zify_post_hook ::= Z.to_euclidean_division_equations.

(** The arithmetic of one group: three bytes, four values, three bytes. *)
Lemma quantum_three a b c :
  a < 256 -> b < 256 -> c < 256 ->
  let n := quantum a b c in
  let m := (n / 262144) * 262144 + ((n / 4096) mod 64) * 4096
           + ((n / 64) mod 64) * 64 + n mod 64 in
  n / 262144 < 64 /\ m / 65536 = a /\ (m / 256) mod 256 = b /\ m mod 256 = c.
Proof. unfold quantum. intros Ha Hb Hc. cbv zeta. repeat split; lia. Qed.

Lemma quantum_two a b :
  a < 256 -> b < 256 ->
  let n := quantum a b 0 in
  let m := ((n / 262144) * 4096 + ((n / 4096) mod 64) * 64
            + (n / 64) mod 64) / 4 in
  n / 262144 < 64 /\ m / 256 = a /\ m mod 256 = b.
Proof. unfold quantum. intros Ha Hb. cbv zeta. repeat split; lia. Qed.

Lemma quantum_one a :
  a < 256 ->
  let n := quantum a 0 0 in
  n / 262144 < 64 /\ ((n / 262144) * 64 + (n / 4096) mod 64) / 16 = a.
Proof. unfold quantum. intros Ha. cbv zeta. split; lia. Qed.

Lemma to_N_lt b : Byte.to_N b < 256.
Proof. pose proof (Byte.to_N_bounded b). lia. Qed.

Lemma mod64_lt n : n mod 64 < 64.
Proof. lia. Qed.

Lemma sextets_lt bs : Forall (fun v => v < 64) (sextets bs).
Proof.
  induction bs as [|a|a b|a b c l IH] using list_ind3; cbn [sextets].
  - constructor.
  - pose proof (quantum_one _ (to_N_lt a)) as [H _].
    repeat constructor; auto using mod64_lt.
  - pose proof (quantum_two _ _ (to_N_lt a) (to_N_lt b)) as [H _].
    repeat constructor; auto using mod64_lt.
  - pose proof (quantum_three _ _ _ (to_N_lt a) (to_N_lt b) (to_N_lt c)) as [H _].
    cbn [app]. repeat (constructor; auto using mod64_lt).
Qed.

Lemma decode_values_sextets bs :
  decode_values (sextets bs) = map Byte.to_N bs.
Proof.
  induction bs as [|a|a b|a b c l IH] using list_ind3; cbn [sextets].
  - reflexivity.
  - pose proof (quantum_one _ (to_N_lt a)) as [_ H].
    cbn [decode_values map]. now rewrite H.
  - pose proof (quantum_two _ _ (to_N_lt a) (to_N_lt b)) as (_ & H1 & H2).
    cbn [decode_values map]. now rewrite H1, H2.
  - pose proof (quantum_three _ _ _ (to_N_lt a) (to_N_lt b) (to_N_lt c))
      as (_ & H1 & H2 & H3).
    cbn [app decode_values map]. now rewrite H1, H2, H3, IH.
Qed.

Lemma encode_sextets bs :
  encode bs = map digit (sextets bs) ++ repeat pad (padding bs).
Proof.
  induction bs as [|a|a b|a b c l IH] using list_ind3;
    cbn [encode sextets padding map app repeat]; try reflexivity.
  now rewrite IH.
Qed.

(** The shape of what [encode] writes. *)
Lemma sextets_shape bs :
  (padding bs <= 2)%nat
  /\ ((length (sextets bs) + padding bs) mod 4 = 0)%nat
  /\ ((length (sextets bs)) mod 4 <> 1)%nat
  /\ (bs <> [] -> sextets bs <> []).
Proof.
  induction bs as [|a|a b|a b c l (IH1 & IH2 & IH3 & IH4)] using list_ind3;
    cbn [sextets padding length app].
  - cbn. repeat split; auto; lia.
  - cbn. repeat split; auto; try lia; intros _; discriminate.
  - cbn. repeat split; auto; try lia; intros _; discriminate.
  - repeat split; try lia; intros _; discriminate.
Qed.

Lemma strip_whitespace_encode bs : strip_whitespace (encode bs) = encode bs.
Proof.
  unfold strip_whitespace.
  induction bs as [|a|a b|a b c l IH] using list_ind3;
    cbn [encode List.filter app]; rewrite ?digit_not_whitespace;
    cbn [negb]; try reflexivity.
  now rewrite IH.
Qed.

Lemma strip_padding_digits vs p :
  ((length vs + p) mod 4 = 0)%nat -> (p <= 2)%nat ->
  (vs = [] -> p = 0%nat) ->
  strip_padding (map digit vs ++ repeat pad p) = map digit vs.
Proof.
  intros Hlen Hp Hne. unfold strip_padding.
  rewrite length_app, length_map, repeat_length, Hlen. cbn [Nat.eqb].
  rewrite rev_app_distr, rev_repeat.
  destruct vs as [|v vs _] using rev_ind.
  - rewrite (Hne eq_refl). reflexivity.
  - rewrite map_app, rev_app_distr. cbn [map rev app].
    destruct p as [|[|[|p]]]; [| | |lia]; cbn [repeat app].
    + rewrite digit_not_pad.
      destruct (rev (map digit vs)); apply app_nil_r.
    + unfold pad at 1. rewrite Ascii.eqb_refl, digit_not_pad.
      cbn [rev]. now rewrite rev_involutive.
    + unfold pad at 1 2. rewrite !Ascii.eqb_refl.
      cbn [rev]. now rewrite rev_involutive.
Qed.

Lemma decode_encode bs : decode (encode bs) = Ok (map Byte.to_N bs).
Proof.
  unfold decode. rewrite strip_whitespace_encode, encode_sextets.
  destruct (sextets_shape bs) as (Hp & Hlen & Hone & Hne).
  rewrite strip_padding_digits; auto.
  - rewrite length_map.
    destruct (Nat.eqb_spec (length (sextets bs) mod 4) 1); [contradiction|].
    rewrite values_digits by apply sextets_lt.
    now rewrite decode_values_sextets.
  - intros Hnil. destruct bs as [|b bs]; [reflexivity|].
    exfalso. now apply Hne.
Qed.

(** The binary string of some bytes. *)
Lemma atob_encode bs :
  atob (String.string_of_list_ascii (encode bs))
  = Ok (String.string_of_list_ascii (map ascii_of_byte bs)).
Proof.
  unfold atob. rewrite String.list_ascii_of_string_of_list_ascii, decode_encode.
  cbn [Result_bind]. rewrite map_map. do 2 f_equal.
  apply map_ext. intros b. symmetry. apply ascii_of_byte_via_N.
Qed.

Lemma Uint8Array_of_binary_string bs :
  JS.Uint8Array_from (JS.charCodes (String.string_of_list_ascii (map ascii_of_byte bs)))
  = bs.
Proof.
  unfold JS.Uint8Array_from, JS.charCodes.
  rewrite String.list_ascii_of_string_of_list_ascii, !map_map.
  rewrite <- (map_id bs) at 2. apply map_ext. intros b.
  now rewrite ascii_N_embedding, byte_of_ascii_of_byte.
Qed.

End Base64Facts.

(** ** Data URLs: what [split(',')[1]] finds *)

Section DataURL.

Lemma append_cons x a b : String x a +:+ b = String x (a +:+ b).
Proof. reflexivity. Qed.

Lemma append_assoc a b c : (a +:+ b) +:+ c = a +:+ (b +:+ c).
Proof.
  induction a as [|x a IH]; [reflexivity|].
  now rewrite !append_cons, IH.
Qed.

Lemma prefix_empty s : String.prefix EmptyString s = true.
Proof. now destruct s. Qed.

Lemma includes_cons c s sub :
  JS.includes (String c s) sub
  = String.prefix sub (String c s) || JS.includes s sub.
Proof. reflexivity. Qed.

Lemma prefix_comma c s :
  String.prefix "," (String c s) = Ascii.eqb c ","%char.
Proof.
  cbn [String.prefix]. destruct (ascii_dec "," c) as [<-|Hne].
  - now rewrite prefix_empty.
  - symmetry. apply Ascii.eqb_neq. intros ->. now apply Hne.
Qed.

Lemma includes_comma_cons c s :
  JS.includes (String c s) "," = false <->
  Ascii.eqb c ","%char = false /\ JS.includes s "," = false.
Proof. now rewrite includes_cons, prefix_comma, orb_false_iff. Qed.

Lemma includes_comma_app a b :
  JS.includes a "," = false -> JS.includes b "," = false ->
  JS.includes (a +:+ b) "," = false.
Proof.
  induction a as [|c a IH]; intros Ha Hb; [exact Hb|].
  apply includes_comma_cons in Ha as [Hc Ha].
  change (String c a +:+ b) with (String c (a +:+ b)).
  apply includes_comma_cons. auto.
Qed.

Lemma split_cons sep c s :
  JS.split sep (String c s)
  = if Ascii.eqb c sep then EmptyString :: JS.split sep s
    else match JS.split sep s with
         | seg :: rest => String c seg :: rest
         | [] => [String c EmptyString]
         end.
Proof. reflexivity. Qed.

Lemma split_comma_skip a b :
  JS.includes a "," = false ->
  JS.split ","%char (a +:+ String ","%char b) = a :: JS.split ","%char b.
Proof.
  induction a as [|c a IH]; intros Ha.
  - reflexivity.
  - apply includes_comma_cons in Ha as [Hc Ha].
    change (String c a +:+ String ","%char b)
      with (String c (a +:+ String ","%char b)).
    now rewrite split_cons, Hc, (IH Ha).
Qed.

Lemma split_comma_none s :
  JS.includes s "," = false -> JS.split ","%char s = [s].
Proof.
  induction s as [|c s IH]; intros Hs; [reflexivity|].
  apply includes_comma_cons in Hs as [Hc Hs].
  now rewrite split_cons, Hc, (IH Hs).
Qed.

Lemma includes_comma_chars l :
  Forall (fun c => Ascii.eqb c ","%char = false) l ->
  JS.includes (String.string_of_list_ascii l) "," = false.
Proof.
  induction 1 as [|c l Hc _ IH]; [reflexivity|].
  cbn [String.string_of_list_ascii]. apply includes_comma_cons. auto.
Qed.

Lemma encode_no_comma bs :
  JS.includes (String.string_of_list_ascii (Base64.encode bs)) "," = false.
Proof.
  apply includes_comma_chars. rewrite encode_sextets.
  apply Forall_app. split.
  - apply Forall_forall. intros c Hc. apply list_elem_of_In, in_map_iff in Hc.
    destruct Hc as (n & <- & _). apply digit_not_comma.
  - apply Forall_forall. intros c Hc. apply list_elem_of_In, repeat_spec in Hc.
    now subst c.
Qed.

Lemma encode_nonempty bs :
  bs <> [] -> String.string_of_list_ascii (Base64.encode bs) <> EmptyString.
Proof.
  destruct bs as [|a [|b [|c l]]]; [congruence| | |]; intros _; discriminate.
Qed.

Lemma mediaType_no_comma file :
  JS.includes (file_type file) "," = false ->
  JS.includes (mediaType file) "," = false.
Proof.
  intros H. unfold mediaType, JS.or_else.
  destruct (String.eqb _ _); [reflexivity|exact H].
Qed.

Lemma readAsDataURL_split file :
  JS.includes (file_type file) "," = false ->
  JS.split ","%char (readAsDataURL file)
  = ["data:" +:+ mediaType file +:+ ";base64";
     String.string_of_list_ascii (Base64.encode (file_bytes file))].
Proof.
  intros H. unfold readAsDataURL. fold (mediaType file).
  replace ("data:" +:+ mediaType file +:+ ";base64," +:+
           String.string_of_list_ascii (Base64.encode (file_bytes file)))
    with (("data:" +:+ mediaType file +:+ ";base64") +:+
          String ","%char (String.string_of_list_ascii (Base64.encode (file_bytes file)))).
  - rewrite split_comma_skip.
    + now rewrite split_comma_none by apply encode_no_comma.
    + apply (includes_comma_app "data:" (mediaType file +:+ ";base64"));
        [reflexivity|].
      apply (includes_comma_app (mediaType file) ";base64");
        [now apply mediaType_no_comma|reflexivity].
  - now rewrite !append_assoc.
Qed.
End DataURL.

(** ** The effects, step by step *)

Section Effects.

Lemma remote_calls_emit e w :
  remote_calls (emit e w)
  = remote_calls w ++ (if is_generateContent e then [e] else []).
Proof.
  unfold remote_calls. cbn [trace emit]. rewrite List.filter_app. cbn.
  now destruct (is_generateContent e).
Qed.

Lemma setItem_calls_emit e w :
  setItem_calls (emit e w)
  = setItem_calls w ++ (if is_setItem e then [e] else []).
Proof.
  unfold setItem_calls. cbn [trace emit]. rewrite List.filter_app. cbn.
  now destruct (is_setItem e).
Qed.

(** The three ways the save effect can go. *)
Lemma saveEffect_of_restoring fs w : saveEffect_of fs true w = (Ok tt, w).
Proof. reflexivity. Qed.

Lemma saveEffect_of_stored fs w :
  let payload := JSON_stringify (map (set_url None) fs) in
  withinQuota w STORAGE_KEY payload = true ->
  saveEffect_of fs false w
  = (Ok tt, emit (EvSetItem STORAGE_KEY payload true)
              (with_localStorage (<[STORAGE_KEY := payload]> (localStorage w)) w)).
Proof.
  intros payload H. unfold saveEffect_of, try_catch, setItem.
  fold payload. now rewrite H.
Qed.

Lemma saveEffect_of_refused fs w :
  let payload := JSON_stringify (map (set_url None) fs) in
  withinQuota w STORAGE_KEY payload = false ->
  saveEffect_of fs false w
  = (Ok tt,
     emit (EvConsoleWarn "Storage limit reached. Some files might not be saved.")
       (emit (EvSetItem STORAGE_KEY payload false) w)).
Proof.
  intros payload H. unfold saveEffect_of, try_catch, setItem.
  fold payload. now rewrite H.
Qed.

(** Whatever it does, the save effect returns, and touches only the store
    and the trace; it makes no remote call. *)
Lemma saveEffect_of_frame fs r w :
  exists w',
    saveEffect_of fs r w = (Ok tt, w')
    /\ files w' = files w /\ isRestoring w' = isRestoring w
    /\ pending w' = pending w /\ objectURLs w' = objectURLs w
    /\ withinQuota w' = withinQuota w
    /\ remote_calls w' = remote_calls w.
Proof.
  destruct r.
  - exists w. now rewrite saveEffect_of_restoring.
  - destruct (withinQuota w STORAGE_KEY (JSON_stringify (map (set_url None) fs))) eqn:E.
    + eexists. split; [now apply saveEffect_of_stored|].
      rewrite remote_calls_emit. cbn. now rewrite app_nil_r.
    + eexists. split; [now apply saveEffect_of_refused|].
      rewrite !remote_calls_emit. cbn. now rewrite !app_nil_r.
Qed.

(** [restoreFile] acts on the registry of object URLs only. *)
Lemma restoreFile_urls f w :
  exists r us n, restoreFile f w = (r, with_objectURLs us n w).
Proof.
  unfold restoreFile.
  destruct (JS.truthy (content f) && _ && _).
  - do 3 eexists. reflexivity.
  - destruct (JS.truthy (content f)).
    + unfold bind, lift.
      destruct (atob _) as [s|e].
      * do 3 eexists. reflexivity.
      * exists (Throw e), (objectURLs w), (nextURL w). now destruct w.
    + exists (Ok f), (objectURLs w), (nextURL w). now destruct w.
Qed.

Lemma mapM_restoreFile_urls fs w :
  exists r us n, mapM restoreFile fs w = (r, with_objectURLs us n w).
Proof.
  revert w. induction fs as [|f fs IH]; intros w.
  - exists (Ok []), (objectURLs w), (nextURL w). now destruct w.
  - cbn [mapM]. unfold bind at 1.
    destruct (restoreFile_urls f w) as (r & us & n & ->).
    destruct r as [f'|e]; [|now do 3 eexists].
    unfold bind at 1.
    destruct (IH (with_objectURLs us n w)) as (r' & us' & n' & ->).
    destruct r' as [fs'|e]; do 3 eexists; reflexivity.
Qed.
End Effects.

(** ** The restore effect and the mount *)

Section RestoreFacts.

Lemma restoreFile_malformed f w :
  malformed f = true ->
  exists e, restoreFile f w = (Throw e, w).
Proof.
  unfold malformed, storedAsBase64, encodedPayload, restoreFile.
  intros H. apply andb_true_iff in H as [H1 H2].
  apply andb_true_iff in H1 as [Ht Hb]. rewrite Ht. cbn [andb].
  apply negb_true_iff in Hb. rewrite Hb.
  unfold bind, lift. destruct (atob _) as [s|e]; [discriminate H2|].
  now exists e.
Qed.

Lemma restoreFile_wellformed f w :
  malformed f = false ->
  exists f' w', restoreFile f w = (Ok f', w') /\ set_url None f' = set_url None f.
Proof.
  unfold malformed, storedAsBase64, encodedPayload, restoreFile.
  intros H. destruct (JS.truthy (content f)); cbn [andb] in *.
  - destruct (negb (JS.includes (type f) "pdf") && negb (JS.endsWith (name f) ".pptx"));
      cbn [negb andb] in *.
    + do 2 eexists. split; reflexivity.
    + unfold bind, lift. destruct (atob _) as [s|e]; [|discriminate H].
      do 2 eexists. split; reflexivity.
  - do 2 eexists. split; reflexivity.
Qed.

Lemma mapM_restoreFile_throws fs f w :
  In f fs -> malformed f = true ->
  exists e w', mapM restoreFile fs w = (Throw e, w').
Proof.
  revert w. induction fs as [|x fs IH]; intros w Hin Hbad; [destruct Hin|].
  cbn [mapM]. unfold bind at 1.
  destruct (restoreFile x w) as [[x'|e] w1] eqn:Ex; [|now do 2 eexists].
  destruct Hin as [->|Hin].
  - destruct (restoreFile_malformed f w Hbad) as (e & He). congruence.
  - unfold bind at 1. destruct (IH w1 Hin Hbad) as (e & w' & ->).
    now do 2 eexists.
Qed.

Lemma mapM_restoreFile_ok fs w :
  Forall (fun f => malformed f = false) fs ->
  exists fs' w',
    mapM restoreFile fs w = (Ok fs', w')
    /\ map (set_url None) fs' = map (set_url None) fs.
Proof.
  intros H. revert w. induction H as [|f fs Hf _ IH]; intros w.
  - do 2 eexists. split; reflexivity.
  - cbn [mapM]. unfold bind at 1.
    destruct (restoreFile_wellformed f w Hf) as (f' & w1 & -> & Ef).
    unfold bind at 1. destruct (IH w1) as (fs' & w2 & -> & Efs).
    do 2 eexists. split; [reflexivity|]. cbn [map]. now rewrite Ef, Efs.
Qed.

(** The restore effect when nothing usable is stored. *)
Lemma restoreEffect_nothing w :
  text_truthy (localStorage w !! STORAGE_KEY) = false ->
  restoreEffect w = (Ok tt, with_isRestoring false w).
Proof.
  intros H. unfold restoreEffect, bind at 1, getItem, gets.
  now rewrite H.
Qed.

Lemma restoreEffect_not_json w :
  localStorage w !! STORAGE_KEY = Some TextNotJSON ->
  restoreEffect w
  = (Ok tt, with_isRestoring false
              (emit (EvConsoleError "Failed to restore session") w)).
Proof.
  intros H. unfold restoreEffect, bind at 1, getItem, gets.
  now rewrite H.
Qed.

(** The restore effect on a stored session. *)
Lemma restoreEffect_session w fs :
  localStorage w !! STORAGE_KEY = Some (TextOfJSON fs) ->
  restoreEffect w
  = match mapM restoreFile fs w with
    | (Ok fs', w') => (Ok tt, with_isRestoring false (with_files fs' w'))
    | (Throw _, w') =>
        (Ok tt, with_isRestoring false
                  (emit (EvConsoleError "Failed to restore session") w'))
    end.
Proof.
  intros H. unfold restoreEffect, bind at 1, getItem, gets.
  rewrite H. cbn [text_truthy default from_option JSON_parse Datatypes.id].
  unfold bind at 1, try_catch, bind at 1, lift, bind at 1.
  now destruct (mapM restoreFile fs w) as [[fs'|e] w'].
Qed.

(** The restore effect returns, ends the restoring phase, and leaves the
    store alone. *)
Lemma restoreEffect_frame w :
  exists w',
    restoreEffect w = (Ok tt, w')
    /\ isRestoring w' = false
    /\ localStorage w' = localStorage w /\ withinQuota w' = withinQuota w
    /\ pending w' = pending w
    /\ setItem_calls w' = setItem_calls w
    /\ remote_calls w' = remote_calls w.
Proof.
  destruct (localStorage w !! STORAGE_KEY) as [[fs| |]|] eqn:E.
  - rewrite (restoreEffect_session w fs E).
    destruct (mapM_restoreFile_urls fs w) as (r & us & n & ->).
    destruct r as [fs'|e]; eexists; (split; [reflexivity|]);
      unfold setItem_calls, remote_calls; cbn;
      rewrite ?List.filter_app; cbn; rewrite ?app_nil_r; auto 10.
  - rewrite restoreEffect_nothing by now rewrite E.
    eexists. split; [reflexivity|]. cbn. auto 10.
  - rewrite (restoreEffect_not_json w E).
    eexists. split; [reflexivity|].
    unfold setItem_calls, remote_calls; cbn;
      rewrite ?List.filter_app; cbn; rewrite ?app_nil_r; auto 10.
  - rewrite restoreEffect_nothing by now rewrite E.
    eexists. split; [reflexivity|]. cbn. auto 10.
Qed.

(** Mounting a fresh page: the restore effect, then the save effect over
    the state it left. *)
Lemma mount_fresh w :
  isRestoring w = true ->
  mount w = saveEffect (snd (restoreEffect w)).
Proof.
  intros H. unfold mount. rewrite H. unfold bind at 1.
  destruct (restoreEffect_frame w) as (w1 & -> & _).
  unfold bind at 1. now rewrite saveEffect_of_restoring.
Qed.

End RestoreFacts.

(** ** Ingestion and restore of a binary file *)

Section RoundTrip.

Lemma mediaType_pdf file :
  JS.includes (file_type file) "pdf" = true ->
  JS.includes (mediaType file) "pdf" = true.
Proof.
  intros H. unfold mediaType, JS.or_else.
  destruct (String.eqb_spec (file_type file) EmptyString) as [E|_]; [|exact H].
  rewrite E in H. discriminate H.
Qed.

Lemma readAsDataURL_truthy file : JS.truthy (Some (readAsDataURL file)) = true.
Proof. reflexivity. Qed.

(** The binary branch of [restoreFile] on what ingestion stored. *)
Lemma restoreFile_binary (f : PreviewFile) (file : File) (w : World) :
  content f = Some (readAsDataURL file) ->
  JS.includes (type f) "pdf" || JS.endsWith (name f) ".pptx" = true ->
  JS.includes (file_type file) "," = false ->
  file_bytes file <> [] ->
  let u := "blob:" +:+ pretty (nextURL w) in
  restoreFile f w
  = (Ok (set_url (Some u) f),
     with_objectURLs
       (<[u := Blob_of_bytes (file_bytes file) (type f)]> (objectURLs w))
       (nextURL w + 1) w).
Proof.
  intros Hc Hbin Hcomma Hne u. unfold restoreFile.
  rewrite Hc, readAsDataURL_truthy.
  cbn [andb the default from_option Datatypes.id].
  rewrite <- negb_orb, Hbin. cbn [negb].
  rewrite readAsDataURL_split by exact Hcomma.
  cbn [lookup list_lookup JS.or_else].
  destruct (String.eqb_spec
              (String.string_of_list_ascii (Base64.encode (file_bytes file)))
              EmptyString) as [E|_].
  { now apply encode_nonempty in E. }
  unfold bind, lift. rewrite atob_encode, Uint8Array_of_binary_string.
  reflexivity.
Qed.

Lemma processFile_binary rnd file w :
  isTextFile file = false ->
  exists rec w1,
    processFile rnd file w = (Ok rec, w1)
    /\ name rec = file_name file
    /\ type rec = mediaType file
    /\ content rec = Some (readAsDataURL file).
Proof.
  intros Hbin. unfold processFile, bind, createObjectURL, ret.
  rewrite Hbin. do 2 eexists. split; [reflexivity|]. now cbn.
Qed.

End RoundTrip.

(** X19.  Where the restore effect decodes, the round trip holds.  A
    binary file that is not empty, whose declared type contains [pdf] or
    whose name ends in [.pptx] (the two kinds the restore effect decodes),
    and whose type has no comma: the record that ingestion makes of it, once
    its [url] is dropped for the session store, is restored to an object URL
    whose blob holds the file's bytes exactly. *)
Theorem binary_round_trip (file : File) (rnd : string) (w w' : World) :
  isTextFile file = false ->
  JS.includes (file_type file) "pdf" || JS.endsWith (file_name file) ".pptx" = true ->
  JS.includes (file_type file) "," = false ->
  file_bytes file <> [] ->
  exists rec w1 rec' w2 u,
    processFile rnd file w = (Ok rec, w1)
    /\ restoreFile (set_url None rec) w' = (Ok rec', w2)
    /\ url rec' = Some u
    /\ objectURLs w2 !! u = Some (Blob_of_bytes (file_bytes file) (mediaType file)).
Proof.
  intros Htext Hkind Hcomma Hne.
  destruct (processFile_binary rnd file w Htext) as (rec & w1 & Hp & Hn & Ht & Hc).
  assert (Hbin : JS.includes (type (set_url None rec)) "pdf"
                 || JS.endsWith (name (set_url None rec)) ".pptx" = true).
  { cbn [set_url type name]. rewrite Hn, Ht.
    apply orb_true_iff in Hkind as [Hpdf|Hpptx]; apply orb_true_iff.
    - left. now apply mediaType_pdf.
    - now right. }
  pose proof (restoreFile_binary (set_url None rec) file w' Hc Hbin Hcomma Hne) as Hr.
  cbv zeta in Hr. do 5 eexists. split; [exact Hp|]. split; [exact Hr|].
  split; [reflexivity|]. cbn [objectURLs with_objectURLs set_url type].
  rewrite Ht. apply lookup_insert_eq.
Qed.

Lemma binary_round_trip_witness :
  exists rec w1 rec' w2 u,
    processFile (same_draw 0) sample_pdf (freshPage ∅) = (Ok rec, w1)
    /\ restoreFile (set_url None rec) (freshPage ∅) = (Ok rec', w2)
    /\ url rec' = Some u
    /\ objectURLs w2 !! u
       = Some (Blob_of_bytes (file_bytes sample_pdf) (mediaType sample_pdf)).
Proof.
  apply binary_round_trip; [reflexivity|reflexivity|reflexivity|discriminate].
Defined.

(** C1 at an image.  Ingestion stores the image as Base64, as it does
    every file that is not text-like; the restore effect takes its record
    for a text-based file, the test of its first branch looking for a PDF
    type or a [.pptx] name only, and wraps the characters of the data URL
    instead of the image's bytes: the round trip is not the identity. *)
Lemma image_restored_as_text :
  isTextFile sample_png = false
  /\ exists rec w1 rec' w2 u b,
       processFile (same_draw 0) sample_png (freshPage ∅) = (Ok rec, w1)
       /\ restoreFile (set_url None rec) (freshPage ∅) = (Ok rec', w2)
       /\ url rec' = Some u
       /\ objectURLs w2 !! u = Some b
       /\ blob_bytes b = JS.utf8_encode "data:image/png;base64,iVA="
       /\ blob_bytes b <> file_bytes sample_png.
Proof.
  split; [reflexivity|].
  do 6 eexists. split; [vm_compute; reflexivity|].
  split; [vm_compute; reflexivity|].
  split; [reflexivity|]. split; [vm_compute; reflexivity|].
  split; [reflexivity|]. discriminate.
Qed.

(** An empty PDF: its data URL has nothing after the comma, [atob] is given
    the whole URL and throws. *)
Lemma empty_file_not_restored :
  exists rec w1 w2,
    processFile (same_draw 0) empty_pdf (freshPage ∅) = (Ok rec, w1)
    /\ content rec = Some "data:application/pdf;base64,"
    /\ restoreFile (set_url None rec) (freshPage ∅)
       = (Throw InvalidCharacterError, w2).
Proof. do 3 eexists. repeat split; vm_compute; reflexivity. Qed.

(** A comma in the declared type: [split(',')[1]] is then a piece of the
    type, not the payload. *)
Lemma comma_in_type_not_restored :
  exists rec w1 w2,
    processFile (same_draw 0) comma_pdf (freshPage ∅) = (Ok rec, w1)
    /\ JS.split "," (the (content rec))
       = ["data:application/pdf"; "v=1;base64"; "JVBERg=="]
    /\ restoreFile (set_url None rec) (freshPage ∅)
       = (Throw InvalidCharacterError, w2).
Proof. do 3 eexists. repeat split; vm_compute; reflexivity. Qed.

(** ** The session store *)

Section SessionFacts.

Lemma saveEffect_of_trace fs r w :
  exists extra, trace (snd (saveEffect_of fs r w)) = trace w ++ extra.
Proof.
  destruct r.
  - exists []. cbn. now rewrite app_nil_r.
  - destruct (withinQuota w STORAGE_KEY (JSON_stringify (map (set_url None) fs))) eqn:E.
    + rewrite saveEffect_of_stored by exact E. now eexists.
    + rewrite saveEffect_of_refused by exact E. cbn.
      rewrite <- app_assoc. now eexists.
Qed.

(** Outside the restoring phase the save effect makes one write attempt,
    of the records without their [url]. *)
Lemma saveEffect_of_attempt fs w :
  let payload := JSON_stringify (map (set_url None) fs) in
  setItem_calls (snd (saveEffect_of fs false w))
  = setItem_calls w
    ++ [EvSetItem STORAGE_KEY payload (withinQuota w STORAGE_KEY payload)].
Proof.
  intros payload.
  destruct (withinQuota w STORAGE_KEY payload) eqn:E.
  - rewrite saveEffect_of_stored by exact E. cbn [snd].
    now rewrite setItem_calls_emit.
  - rewrite saveEffect_of_refused by exact E. cbn [snd].
    rewrite !setItem_calls_emit. cbn. now rewrite app_nil_r.
Qed.

Lemma strip_same f f' :
  set_url None f' = set_url None f -> same_but_url f f'.
Proof.
  unfold set_url, same_but_url. intros H. injection H. auto 10.
Qed.

Lemma map_strip_same fs fs' :
  map (set_url None) fs' = map (set_url None) fs ->
  Forall2 same_but_url fs fs'.
Proof.
  revert fs'. induction fs as [|f fs IH]; intros [|f' fs'] H;
    try discriminate H; [constructor|].
  injection H as H1 H2 H3 H4 H5 H6 H7 Hfs.
  constructor; [unfold same_but_url; auto 10|now apply IH].
Qed.

Lemma Forall2_same_in fs fs' f :
  Forall2 same_but_url fs fs' -> In f fs ->
  exists f', In f' fs' /\ same_but_url f f'.
Proof.
  induction 1 as [|x y l l' Hxy _ IH]; intros Hin; [destruct Hin|].
  destruct Hin as [->|Hin].
  - exists y. split; [now left|exact Hxy].
  - destruct (IH Hin) as (f' & Hf' & Hs). exists f'. split; [now right|exact Hs].
Qed.

End SessionFacts.

(** C6.  A save that the store refuses for lack of room does not throw and
    leaves the store as it was: the item read back, and a page loaded right
    after, are those of before the save. *)
Theorem save_over_quota_keeps_session (w : World) :
  withinQuota w STORAGE_KEY (JSON_stringify (map (set_url None) (files w))) = false ->
  exists w',
    saveEffect w = (Ok tt, w')
    /\ localStorage w' = localStorage w
    /\ fst (getItem STORAGE_KEY w') = fst (getItem STORAGE_KEY w)
    /\ pageLoad w' = pageLoad w.
Proof.
  intros Hq. unfold saveEffect. destruct (isRestoring w).
  - exists w. now rewrite saveEffect_of_restoring.
  - rewrite saveEffect_of_refused by exact Hq. eexists. split; [reflexivity|].
    repeat split.
Qed.

Lemma save_over_quota_keeps_session_witness :
  exists w',
    saveEffect (with_isRestoring false (with_files [doc_md; doc_pptx]
                                          (fullPage (session [doc_md]))))
    = (Ok tt, w')
    /\ localStorage w' = session [doc_md]
    /\ fst (getItem STORAGE_KEY w') = Ok (Some (TextOfJSON [doc_md]))
    /\ pageLoad w' = fullPage (session [doc_md]).
Proof.
  apply (save_over_quota_keeps_session
           (with_isRestoring false (with_files [doc_md; doc_pptx]
                                      (fullPage (session [doc_md]))))).
  reflexivity.
Defined.

(** C5 (amended).  When a record of the saved session has a payload that
    [atob] refuses, the exception is caught around the whole restore: the
    mount returns and the restoring phase ends, with an error logged, but no
    record of the session is put in the registry. *)
Theorem bad_record_aborts_restore (w : World) (fs : list PreviewFile) (f : PreviewFile) :
  isRestoring w = true ->
  localStorage w !! STORAGE_KEY = Some (TextOfJSON fs) ->
  In f fs ->
  malformed f = true ->
  exists w',
    mount w = (Ok tt, w')
    /\ files w' = files w
    /\ isRestoring w' = false
    /\ In (EvConsoleError "Failed to restore session") (trace w').
Proof.
  intros Hr Hst Hin Hbad. rewrite (mount_fresh w Hr), (restoreEffect_session w fs Hst).
  destruct (mapM_restoreFile_throws fs f w Hin Hbad) as (e & w1 & Hm).
  destruct (mapM_restoreFile_urls fs w) as (r & us & n & Hu).
  rewrite Hm in Hu. injection Hu as _ ->. rewrite Hm. cbn [snd].
  unfold saveEffect.
  set (w2 := with_isRestoring false (emit _ _)).
  destruct (saveEffect_of_frame (files w2) (isRestoring w2) w2)
    as (w' & Hs & Hf & Hi & _).
  destruct (saveEffect_of_trace (files w2) (isRestoring w2) w2) as (extra & Ht).
  rewrite Hs in Ht. cbn [snd] in Ht.
  exists w'. split; [exact Hs|]. split; [now rewrite Hf|]. split; [now rewrite Hi|].
  rewrite Ht. apply in_or_app. left. cbn. apply in_or_app. right. now left.
Qed.

Lemma bad_record_aborts_restore_witness :
  exists w',
    mount (freshPage (session [doc_md; doc_bad_pdf])) = (Ok tt, w')
    /\ files w' = []
    /\ isRestoring w' = false
    /\ In (EvConsoleError "Failed to restore session") (trace w').
Proof.
  apply (bad_record_aborts_restore (freshPage (session [doc_md; doc_bad_pdf]))
           [doc_md; doc_bad_pdf] doc_bad_pdf).
  - reflexivity.
  - vm_compute. reflexivity.
  - right. left. reflexivity.
  - vm_compute. reflexivity.
Defined.

(** C5 as stated fails: of two saved records, one sound and one with a
    payload that is not base64, the restore produces neither; the save that
    follows then replaces the stored session by the empty one. *)
Lemma one_bad_record_loses_the_session :
  malformed doc_md = false
  /\ malformed doc_bad_pdf = true
  /\ exists w',
       mount (freshPage (session [doc_md; doc_bad_pdf])) = (Ok tt, w')
       /\ files w' = []
       /\ localStorage w' !! STORAGE_KEY = Some (TextOfJSON []).
Proof.
  split; [vm_compute; reflexivity|]. split; [vm_compute; reflexivity|].
  eexists. split; [vm_compute; reflexivity|]. split; [reflexivity|].
  vm_compute. reflexivity.
Qed.

(** C7 (amended).  On a freshly loaded page the save effect of the first
    render, closed over [isRestoring = true], writes nothing; when the
    restore effect has ended the restoring phase, the change of
    [isRestoring] runs the save effect once more, and that run does make one
    write attempt: of the very records the restore has just put in the
    registry, without their [url]. *)
Theorem restore_is_followed_by_one_save (w : World) :
  isRestoring w = true ->
  exists w1 w',
    restoreEffect w = (Ok tt, w1)
    /\ saveEffect_of (files w) (isRestoring w) w1 = (Ok tt, w1)
    /\ mount w = (Ok tt, w')
    /\ files w' = files w1
    /\ setItem_calls w'
       = setItem_calls w
         ++ [EvSetItem STORAGE_KEY
               (JSON_stringify (map (set_url None) (files w')))
               (withinQuota w STORAGE_KEY
                  (JSON_stringify (map (set_url None) (files w'))))].
Proof.
  intros Hr. rewrite (mount_fresh w Hr).
  destruct (restoreEffect_frame w) as (w1 & Hre & Hi & _ & Hq & _ & Hcalls & _).
  rewrite Hre. cbn [snd]. unfold saveEffect. rewrite Hi, Hr.
  destruct (saveEffect_of_frame (files w1) false w1) as (w' & Hs & Hf & _).
  pose proof (saveEffect_of_attempt (files w1) w1) as Ha.
  rewrite Hs in Ha. cbn [snd] in Ha. cbv zeta in Ha.
  exists w1, w'. split; [reflexivity|]. split; [reflexivity|].
  split; [exact Hs|]. split; [exact Hf|].
  now rewrite Ha, Hf, Hcalls, Hq.
Qed.

Lemma restore_is_followed_by_one_save_witness :
  exists w1 w',
    restoreEffect (freshPage (session [doc_md])) = (Ok tt, w1)
    /\ saveEffect_of [] true w1 = (Ok tt, w1)
    /\ mount (freshPage (session [doc_md])) = (Ok tt, w')
    /\ files w' = files w1
    /\ setItem_calls w'
       = [EvSetItem STORAGE_KEY
            (JSON_stringify (map (set_url None) (files w'))) true].
Proof.
  apply (restore_is_followed_by_one_save (freshPage (session [doc_md]))).
  reflexivity.
Defined.

(** C7 as stated fails: mounting over a saved session of one document,
    with no ingest, removal or summary in between, ends with a write of the
    record that was just loaded. *)
Lemma mount_saves_what_it_loaded :
  exists w',
    mount (freshPage (session [doc_md])) = (Ok tt, w')
    /\ files w' = [set_url (Some "blob:0") doc_md]
    /\ trace w' = [EvSetItem STORAGE_KEY (TextOfJSON [doc_md]) true].
Proof.
  eexists. split; [vm_compute; reflexivity|]. split; reflexivity.
Qed.

(** C10 (amended).  What the save effect stores is the registry's records
    with [url] removed and every other field as it is, the summary and the
    [isSummarizing] flag among them.  A page loaded over that store, when the
    store has taken the write and the records decode, holds the same records
    again up to [url]: a document saved while its summary was awaited comes
    back marked as summarizing, and the new page awaits no remote call. *)
Theorem session_omits_only_url (w : World) :
  isRestoring w = false ->
  withinQuota w STORAGE_KEY (JSON_stringify (map (set_url None) (files w))) = true ->
  Forall (fun f => malformed f = false) (files w) ->
  exists w1 stored w2,
    saveEffect w = (Ok tt, w1)
    /\ localStorage w1 !! STORAGE_KEY = Some (TextOfJSON stored)
    /\ Forall (fun s => url s = None) stored
    /\ Forall2 same_but_url (files w) stored
    /\ mount (pageLoad w1) = (Ok tt, w2)
    /\ Forall2 same_but_url (files w) (files w2)
    /\ (forall f, In f (files w) -> isSummarizing f = Some true ->
        exists f', In f' (files w2) /\ id f' = id f
                   /\ isSummarizing f' = Some true)
    /\ pending w2 = []
    /\ remote_calls w2 = [].
Proof.
  intros Hr Hq Hok. unfold saveEffect at 1. rewrite Hr.
  rewrite saveEffect_of_stored by exact Hq.
  set (stored := map (set_url None) (files w)).
  set (w1 := emit _ _).
  assert (Hst : localStorage (pageLoad w1) !! STORAGE_KEY = Some (TextOfJSON stored)).
  { cbn. apply lookup_insert_eq. }
  assert (Hstored : Forall (fun f => malformed f = false) stored).
  { unfold stored. apply Forall_forall. intros s Hs.
    apply list_elem_of_In, in_map_iff in Hs. destruct Hs as (f & <- & Hf).
    rewrite Forall_forall in Hok. apply (Hok f). now apply list_elem_of_In. }
  destruct (mapM_restoreFile_ok stored (pageLoad w1) Hstored) as (fs' & w' & Hm & Hfs').
  destruct (mapM_restoreFile_urls stored (pageLoad w1)) as (r & us & n & Hu).
  rewrite Hm in Hu. injection Hu as _ ->.
  assert (Hre : restoreEffect (pageLoad w1)
                = (Ok tt, with_isRestoring false
                            (with_files fs' (with_objectURLs us n (pageLoad w1))))).
  { rewrite (restoreEffect_session _ stored Hst). now rewrite Hm. }
  set (w3 := with_isRestoring false _) in Hre.
  assert (Hmount : mount (pageLoad w1) = saveEffect_of (files w3) (isRestoring w3) w3).
  { now rewrite (mount_fresh (pageLoad w1) eq_refl), Hre. }
  destruct (saveEffect_of_frame (files w3) (isRestoring w3) w3)
    as (w2 & Hs & Hf & _ & Hp & _ & _ & Hc).
  assert (Hsame : Forall2 same_but_url (files w) (files w2)).
  { rewrite Hf. cbn. apply map_strip_same. rewrite Hfs'. unfold stored.
    rewrite map_map. apply map_ext. now intros []. }
  exists w1, stored, w2. split; [reflexivity|]. split; [apply lookup_insert_eq|].
  split.
  { unfold stored. apply Forall_forall. intros s Hin.
    apply list_elem_of_In, in_map_iff in Hin. now destruct Hin as (f & <- & _). }
  split.
  { apply map_strip_same. unfold stored. rewrite map_map. apply map_ext. now intros []. }
  split; [now rewrite Hmount|]. split; [exact Hsame|]. split.
  { intros f Hin Hflag. destruct (Forall2_same_in _ _ f Hsame Hin) as (f' & Hin' & Hsb).
    exists f'. destruct Hsb as (Hid & _ & _ & _ & _ & _ & Hsum).
    split; [exact Hin'|]. split; [exact Hid|]. now rewrite Hsum. }
  split; [now rewrite Hp|now rewrite Hc].
Qed.

Lemma session_omits_only_url_witness :
  exists w1 stored w2,
    saveEffect inflightPage = (Ok tt, w1)
    /\ localStorage w1 !! STORAGE_KEY = Some (TextOfJSON stored)
    /\ Forall (fun s => url s = None) stored
    /\ Forall2 same_but_url (files inflightPage) stored
    /\ mount (pageLoad w1) = (Ok tt, w2)
    /\ Forall2 same_but_url (files inflightPage) (files w2)
    /\ (forall f, In f (files inflightPage) -> isSummarizing f = Some true ->
        exists f', In f' (files w2) /\ id f' = id f
                   /\ isSummarizing f' = Some true)
    /\ pending w2 = []
    /\ remote_calls w2 = [].
Proof.
  apply (session_omits_only_url inflightPage).
  - reflexivity.
  - reflexivity.
  - repeat constructor.
Defined.

(** C10 as stated fails: a document is not restored as summarizing, nor
    at all, when another record of the session does not decode.  An empty
    PDF is dropped on the page while the summary of a Markdown document is
    awaited; both records are saved, and the page loaded next has none. *)
Lemma in_flight_document_not_restored :
  exists w1 rec w2,
    handleFiles same_draw (Some [empty_pdf]) inflightPage = (Ok tt, w1)
    /\ files w1 = [doc_inflight; rec]
    /\ isSummarizing doc_inflight = Some true
    /\ content rec = Some "data:application/pdf;base64,"
    /\ localStorage w1 !! STORAGE_KEY
       = Some (TextOfJSON [set_url None doc_inflight; set_url None rec])
    /\ mount (pageLoad w1) = (Ok tt, w2)
    /\ files w2 = []
    /\ trace w2 = [EvConsoleError "Failed to restore session";
                   EvSetItem STORAGE_KEY (TextOfJSON []) true].
Proof.
  do 3 eexists. split; [vm_compute; reflexivity|]. split; [reflexivity|].
  split; [reflexivity|]. split; [reflexivity|].
  split; [vm_compute; reflexivity|].
  split; [vm_compute; reflexivity|]. split; reflexivity.
Qed.

(** ** Ingestion *)

Section Ingest.

Lemma processFiles_spec random fileList :
  forall i w,
  exists ps us n,
    processFiles random i fileList w = (Ok ps, with_objectURLs us n w)
    /\ Forall2 from_file fileList ps
    /\ map id ps = map (drawn_id random) (seq i (length fileList)).
Proof.
  induction fileList as [|file rest IH]; intros i w.
  - exists [], (objectURLs w), (nextURL w). split; [now destruct w|].
    split; [constructor|reflexivity].
  - cbn [processFiles]. unfold bind at 1, processFile, bind at 1, createObjectURL, ret.
    unfold bind at 1.
    destruct (IH (S i) (with_objectURLs
                          (<["blob:" +:+ pretty (nextURL w) := Blob_of_File file]>
                             (objectURLs w)) (nextURL w + 1) w))
      as (ps & us & n & -> & Hps & Hids).
    do 3 eexists. split; [reflexivity|]. split.
    + constructor; [|exact Hps]. unfold from_file. cbn. auto 10.
    + cbn [map length seq id]. now rewrite Hids.
Qed.

Lemma handleFiles_spec random fileList w :
  exists ps us n,
    handleFiles random (Some fileList) w
    = saveEffect (with_files (files w ++ ps) (with_objectURLs us n w))
    /\ Forall2 from_file fileList ps
    /\ map id ps = map (drawn_id random) (seq 0 (length fileList)).
Proof.
  destruct (processFiles_spec random fileList 0%nat w) as (ps & us & n & Hp & H1 & H2).
  exists ps, us, n. split; [|now split].
  unfold handleFiles, bind at 1. rewrite Hp. reflexivity.
Qed.

End Ingest.



(** ** Summaries *)

Section Summaries.

Lemma substring0_length n s : (String.length (JS.substring0 n s) <= n)%nat.
Proof.
  unfold JS.substring0. revert n. induction s as [|c s IH]; intros [|n]; cbn; try lia.
  specialize (IH n). lia.
Qed.

Lemma substring0_prefix n s : String.prefix (JS.substring0 n s) s = true.
Proof.
  unfold JS.substring0. revert n. induction s as [|c s IH]; intros [|n]; cbn;
    try reflexivity.
  destruct (ascii_dec c c) as [_|Hne]; [apply IH|now elim Hne].
Qed.

Lemma substring0_short n s :
  (String.length s <= n)%nat -> JS.substring0 n s = s.
Proof.
  unfold JS.substring0. revert n. induction s as [|c s IH]; intros [|n] H; cbn in *;
    try reflexivity; try lia.
  f_equal. apply IH. lia.
Qed.

(** [handleSummarize] up to its [await], spelled out: no test of the
    document's state comes before the request. *)
Lemma handleSummarize_eq file w :
  handleSummarize file w
  = saveEffect
      (with_pending (pending w ++ [id file])
         (emit (EvGenerateContent (name file)
                  (JS.substring0 5000 (textToSummarize file)))
            (with_files
               (map (fun f => if String.eqb (id f) (id file)
                              then set_isSummarizing (Some true) f else f)
                  (files w)) w))).
Proof. reflexivity. Qed.

Lemma handleSummarize_calls file w :
  exists w',
    handleSummarize file w = (Ok tt, w')
    /\ remote_calls w'
       = remote_calls w
         ++ [EvGenerateContent (name file)
               (JS.substring0 5000 (textToSummarize file))]
    /\ pending w' = pending w ++ [id file].
Proof.
  rewrite handleSummarize_eq. set (w1 := with_pending _ _).
  destruct (saveEffect_of_frame (files w1) (isRestoring w1) w1)
    as (w' & Hs & _ & _ & Hp & _ & _ & Hc).
  exists w'. split; [exact Hs|]. split; [|now rewrite Hp].
  rewrite Hc. unfold w1, remote_calls. cbn. rewrite List.filter_app. reflexivity.
Qed.

(** The rest of [handleSummarize] for an answered call. *)
Lemma handleSummarize_resume_eq k o w file_id :
  pending w !! k = Some file_id ->
  handleSummarize_resume k o w
  = let w1 := with_pending (delete k (pending w)) w in
    let w2 := match o with
              | Rejects => emit (EvConsoleError "Error summarizing document:") w1
              | Responds _ => w1
              end in
    let msg := match o with
               | Rejects => SUMMARY_ERROR
               | Responds text => JS.or_else text NO_SUMMARY
               end in
    saveEffect
      (with_files
         (map (fun f => if String.eqb (id f) file_id
                        then set_isSummarizing (Some false)
                               (set_summary (Some msg) f)
                        else f)
            (files w2)) w2).
Proof.
  intros H. unfold handleSummarize_resume, bind at 1, gets. rewrite H.
  now destruct o.
Qed.

End Summaries.

(** X17.  What [handleSummarize] selects and sends.  The request carries
    the file name and the first 5000 characters, at most, of the selected
    text: for a declared type that contains [pdf], a placeholder made of the
    file name; otherwise the record's [content] field, whatever it holds, and
    the file name when that field is missing or empty. *)
Lemma summarize_sends_selected_text (file : PreviewFile) (w : World) :
  exists w' sent,
    handleSummarize file w = (Ok tt, w')
    /\ remote_calls w' = remote_calls w ++ [EvGenerateContent (name file) sent]
    /\ sent = JS.substring0 5000 (textToSummarize file)
    /\ (String.length sent <= 5000)%nat
    /\ String.prefix sent (textToSummarize file) = true
    /\ (JS.includes (type file) "pdf" = true ->
        textToSummarize file = "Documento PDF: " +:+ name file)
    /\ (JS.includes (type file) "pdf" = false ->
        forall c, content file = Some c -> c <> EmptyString ->
        textToSummarize file = c)
    /\ (JS.includes (type file) "pdf" = false ->
        content file = None \/ content file = Some EmptyString ->
        textToSummarize file = name file).
Proof.
  destruct (handleSummarize_calls file w) as (w' & Hh & Hc & _).
  exists w', (JS.substring0 5000 (textToSummarize file)).
  split; [exact Hh|]. split; [exact Hc|]. split; [reflexivity|].
  split; [apply substring0_length|]. split; [apply substring0_prefix|].
  unfold textToSummarize. repeat split.
  - now intros ->.
  - intros -> c -> Hc'. unfold JS.or_else.
    destruct (String.eqb_spec c EmptyString); [contradiction|reflexivity].
  - now intros -> [->| ->].
Qed.

(** C9 at a presentation.  The claim holds for text documents and for
    PDF types; a binary document of another type has no decoded text, yet
    what goes out for it is neither its text nor its file name but the start
    of the Base64 data URL that ingestion stored in [content]: the test made
    for PDF types is not made for it. *)
Lemma pptx_summary_sends_base64 :
  isTextFile sample_pptx = false
  /\ exists w1 f w2,
       handleFiles same_draw (Some [sample_pptx])
         (with_isRestoring false (freshPage ∅)) = (Ok tt, w1)
       /\ files w1 = [f]
       /\ handleSummarize f w1 = (Ok tt, w2)
       /\ remote_calls w2
          = [EvGenerateContent "slide.pptx"
               ("data:application/vnd.openxmlformats-officedocument."
                +:+ "presentationml.presentation;base64,UEsDBA==")].
Proof.
  split; [reflexivity|].
  do 3 eexists. split; [vm_compute; reflexivity|]. split; [reflexivity|].
  split; vm_compute; reflexivity.
Qed.

(** ** A second request for a summary *)

Section SecondRequest.

Lemma header_controls file onRemove onSummarize :
  map button_control (PreviewCard_header file onRemove onSummarize)
  = headerControls file.
Proof. unfold PreviewCard_header, headerControls. now destruct (_ && _). Qed.

Lemma previewGrid_lookup w i f :
  isRestoring w = false ->
  files w !! i = Some f ->
  previewGrid w !! i = Some (PreviewCard_header f removeFile handleSummarize).
Proof.
  intros Hr Hf. unfold previewGrid. now rewrite Hr, list_lookup_fmap, Hf.
Qed.

(** The summarize button of a card that shows it runs [handleSummarize] on
    the card's record. *)
Lemma click_offered w i f :
  isRestoring w = false ->
  files w !! i = Some f ->
  JS.truthy (summary f) = false ->
  JS.truthy_bool (isSummarizing f) = false ->
  click i GerarIA w = handleSummarize f w.
Proof.
  intros Hr Hf Hs Hi. unfold click. rewrite (previewGrid_lookup w i f Hr Hf).
  unfold PreviewCard_header. now rewrite Hs, Hi.
Qed.

(** A card whose record is marked, or has a summary, has no such button. *)
Lemma click_not_offered w i f :
  isRestoring w = false ->
  files w !! i = Some f ->
  JS.truthy_bool (isSummarizing f) = true \/ JS.truthy (summary f) = true ->
  click i GerarIA w = (Ok tt, w).
Proof.
  intros Hr Hf H. unfold click. rewrite (previewGrid_lookup w i f Hr Hf).
  unfold PreviewCard_header.
  destruct H as [-> | ->]; [rewrite andb_false_r|]; reflexivity.
Qed.

(** What [handleSummarize] leaves when it reaches its [await]. *)
Lemma handleSummarize_marks file w :
  exists w',
    handleSummarize file w = (Ok tt, w')
    /\ files w'
       = map (fun f => if String.eqb (id f) (id file)
                       then set_isSummarizing (Some true) f else f) (files w)
    /\ isRestoring w' = isRestoring w
    /\ remote_calls w'
       = remote_calls w
         ++ [EvGenerateContent (name file)
               (JS.substring0 5000 (textToSummarize file))]
    /\ pending w' = pending w ++ [id file].
Proof.
  rewrite handleSummarize_eq. set (w1 := with_pending _ _).
  destruct (saveEffect_of_frame (files w1) (isRestoring w1) w1)
    as (w' & Hs & Hf & Hi & Hp & _ & _ & Hc).
  exists w'. split; [exact Hs|]. split; [now rewrite Hf|].
  split; [now rewrite Hi|]. split; [|now rewrite Hp].
  rewrite Hc. unfold w1, remote_calls. cbn. now rewrite List.filter_app.
Qed.

(** The answer to the call that was made last. *)
Lemma handleSummarize_resume_last o w file_id p :
  pending w = p ++ [file_id] ->
  exists w',
    handleSummarize_resume (length p) o w = (Ok tt, w')
    /\ pending w' = p
    /\ remote_calls w' = remote_calls w.
Proof.
  intros Hp.
  assert (Hk : pending w !! length p = Some file_id).
  { rewrite Hp. now apply list_lookup_middle. }
  rewrite (handleSummarize_resume_eq (length p) o w file_id Hk). cbv zeta.
  set (w3 := with_files _ _).
  destruct (saveEffect_of_frame (files w3) (isRestoring w3) w3)
    as (w' & Hs & _ & _ & Hp' & _ & _ & Hc).
  exists w'. split; [exact Hs|]. split.
  - rewrite Hp'. subst w3. destruct o; cbn; rewrite Hp, delete_middle;
      apply app_nil_r.
  - rewrite Hc. subst w3. destruct o; [|reflexivity].
    unfold remote_calls. cbn. rewrite List.filter_app. cbn. apply app_nil_r.
Qed.

End SecondRequest.

(** C3.  A second request for the summary of a document is a no-op.  A
    request is a click on the summarize button of the document's card, the
    one place where [handleSummarize] is called.  The first click on a card
    that has the button makes one remote call and marks every record under
    the document's id; the page rendered after it has no summarize button on
    any card of that id, so the second click calls nothing and changes
    nothing.  The pair leaves one awaited call, and its answer is the one
    resolved transition.  On a card whose document is marked already, or has
    a summary, the first click is a no-op as well. *)
Theorem second_request_is_a_noop (w : World) (i : nat) (f : PreviewFile) :
  isRestoring w = false ->
  files w !! i = Some f ->
  exists w1,
    click i GerarIA w = (Ok tt, w1)
    /\ click i GerarIA w1 = (Ok tt, w1)
    /\ (JS.truthy_bool (isSummarizing f) = true \/ JS.truthy (summary f) = true ->
        w1 = w)
    /\ (JS.truthy_bool (isSummarizing f) = false ->
        JS.truthy (summary f) = false ->
        remote_calls w1
        = remote_calls w
          ++ [EvGenerateContent (name f) (JS.substring0 5000 (textToSummarize f))]
        /\ pending w1 = pending w ++ [id f]
        /\ (forall j fj,
              files w1 !! j = Some fj -> id fj = id f ->
              isSummarizing fj = Some true
              /\ click j GerarIA w1 = (Ok tt, w1))
        /\ (forall o, exists w2,
              handleSummarize_resume (length (pending w)) o w1 = (Ok tt, w2)
              /\ pending w2 = pending w
              /\ remote_calls w2 = remote_calls w1)).
Proof.
  intros Hr Hf.
  destruct (JS.truthy_bool (isSummarizing f)) eqn:Hi.
  { exists w. rewrite (click_not_offered w i f Hr Hf (or_introl Hi)).
    split; [reflexivity|]. split; [reflexivity|]. split; [reflexivity|].
    discriminate. }
  destruct (JS.truthy (summary f)) eqn:Hs.
  { exists w. rewrite (click_not_offered w i f Hr Hf (or_intror Hs)).
    split; [reflexivity|]. split; [reflexivity|]. split; [reflexivity|].
    discriminate. }
  destruct (handleSummarize_marks f w) as (w1 & Hh & Hfs & Hr1 & Hc & Hp).
  rewrite Hr in Hr1.
  assert (Hmarked : forall j fj,
             files w1 !! j = Some fj -> id fj = id f ->
             isSummarizing fj = Some true /\ click j GerarIA w1 = (Ok tt, w1)).
  { intros j fj Hj Hid.
    assert (Hm : isSummarizing fj = Some true).
    { rewrite Hfs, list_lookup_fmap in Hj.
      destruct (files w !! j) as [f0|]; [|discriminate Hj].
      cbn in Hj. injection Hj as Hj.
      destruct (String.eqb_spec (id f0) (id f)) as [_|Hne]; subst fj;
        [reflexivity|now elim Hne]. }
    split; [exact Hm|].
    apply (click_not_offered w1 j fj Hr1 Hj). left. now rewrite Hm. }
  exists w1. rewrite (click_offered w i f Hr Hf Hs Hi).
  split; [exact Hh|]. split.
  { apply (Hmarked i (set_isSummarizing (Some true) f)); [|reflexivity].
    rewrite Hfs, list_lookup_fmap, Hf. cbn. now rewrite String.eqb_refl. }
  split; [intros [H|H]; discriminate H|].
  intros _ _. split; [exact Hc|]. split; [exact Hp|]. split; [exact Hmarked|].
  intros o. apply (handleSummarize_resume_last o w1 (id f) (pending w) Hp).
Qed.

Lemma second_request_is_a_noop_witness :
  exists w1,
    click 0 GerarIA (pageWith doc_idle) = (Ok tt, w1)
    /\ click 0 GerarIA w1 = (Ok tt, w1)
    /\ (JS.truthy_bool (isSummarizing doc_idle) = true
        \/ JS.truthy (summary doc_idle) = true ->
        w1 = pageWith doc_idle)
    /\ (JS.truthy_bool (isSummarizing doc_idle) = false ->
        JS.truthy (summary doc_idle) = false ->
        remote_calls w1
        = remote_calls (pageWith doc_idle)
          ++ [EvGenerateContent (name doc_idle)
                (JS.substring0 5000 (textToSummarize doc_idle))]
        /\ pending w1 = pending (pageWith doc_idle) ++ [id doc_idle]
        /\ (forall j fj,
              files w1 !! j = Some fj -> id fj = id doc_idle ->
              isSummarizing fj = Some true
              /\ click j GerarIA w1 = (Ok tt, w1))
        /\ (forall o, exists w2,
              handleSummarize_resume (length (pending (pageWith doc_idle))) o w1
              = (Ok tt, w2)
              /\ pending w2 = pending (pageWith doc_idle)
              /\ remote_calls w2 = remote_calls w1)).
Proof.
  apply (second_request_is_a_noop (pageWith doc_idle) 0 doc_idle); reflexivity.
Defined.

(** Two clicks in a row on the card of a document, then the answer: one
    remote call, one summary. *)
Example two_clicks_one_call :
  exists w1 w2,
    click 0 GerarIA (pageWith doc_idle) = (Ok tt, w1)
    /\ files w1 = [doc_inflight]
    /\ click 0 GerarIA w1 = (Ok tt, w1)
    /\ remote_calls w1 = [EvGenerateContent "notes.md" "# T"]
    /\ pending w1 = ["a1"]
    /\ handleSummarize_resume 0 (Responds (Some "first")) w1 = (Ok tt, w2)
    /\ map summary (files w2) = [Some "first"]
    /\ pending w2 = [].
Proof.
  do 2 eexists.
  split; [vm_compute; reflexivity|]. split; [reflexivity|].
  split; [vm_compute; reflexivity|]. split; [reflexivity|].
  split; [reflexivity|]. split; [vm_compute; reflexivity|].
  split; reflexivity.
Qed.

(** C4 (amended).  When the remote call rejects, or answers with no text
    or an empty one, the document gets a fixed message as its summary: the
    error message for a call that rejected (which is also logged), the other
    message for an answer without text, two different texts, neither empty.
    The summary view shows the message and the document stops being marked
    as summarizing.  The record keeps no mark of the failure: it is the
    record that an answer made of that very message would leave. *)
Theorem failed_summary_is_a_fallback
  (w : World) (k : nat) (file_id : string) (o : RemoteOutcome) :
  pending w !! k = Some file_id ->
  o = Rejects \/ o = Responds None \/ o = Responds (Some EmptyString) ->
  exists w' msg,
    handleSummarize_resume k o w = (Ok tt, w')
    /\ msg = match o with
             | Rejects => SUMMARY_ERROR
             | Responds _ => NO_SUMMARY
             end
    /\ SUMMARY_ERROR <> NO_SUMMARY
    /\ (o = Rejects -> In (EvConsoleError "Error summarizing document:") (trace w'))
    /\ JS.truthy (Some msg) = true
    /\ files w'
       = map (fun f => if String.eqb (id f) file_id
                       then set_isSummarizing (Some false)
                              (set_summary (Some msg) f)
                       else f) (files w)
    /\ files (snd (handleSummarize_resume k (Responds (Some msg)) w)) = files w'
    /\ (forall f,
          renderContent
            (set_isSummarizing (Some false) (set_summary (Some msg) f))
            ViewSummary
          = SummaryPanel (SummaryText msg)).
Proof.
  intros Hp Ho.
  set (msg := match o with
              | Rejects => SUMMARY_ERROR
              | Responds text => JS.or_else text NO_SUMMARY
              end).
  assert (Hmsg : msg = match o with
                        | Rejects => SUMMARY_ERROR
                        | Responds _ => NO_SUMMARY
                        end
                 /\ JS.truthy (Some msg) = true
                 /\ JS.or_else (Some msg) NO_SUMMARY = msg).
  { destruct Ho as [->|[->| ->]]; cbn; auto. }
  destruct Hmsg as (Hm1 & Hm2 & Hm3).
  pose proof (handleSummarize_resume_eq k o w file_id Hp) as E1.
  pose proof (handleSummarize_resume_eq k (Responds (Some msg)) w file_id Hp) as E2.
  cbv beta iota zeta in E1, E2. fold msg in E1. rewrite Hm3 in E2.
  set (wa := with_files _ _) in E1. set (wb := with_files _ _) in E2.
  destruct (saveEffect_of_frame (files wa) (isRestoring wa) wa) as (w' & Hs & Hf & _).
  destruct (saveEffect_of_frame (files wb) (isRestoring wb) wb) as (w'' & Hs' & Hf' & _).
  destruct (saveEffect_of_trace (files wa) (isRestoring wa) wa) as (extra & Ht).
  rewrite Hs in Ht. cbn [snd] in Ht.
  exists w', msg. rewrite E1, E2. unfold saveEffect. rewrite Hs, Hs'. cbn [snd].
  split; [reflexivity|]. split; [exact Hm1|]. split; [discriminate|].
  split.
  { intros ->. rewrite Ht. apply in_or_app. left. subst wa. cbn.
    apply in_or_app. right. now left. }
  split; [exact Hm2|].
  split.
  { rewrite Hf. clear - o. subst wa msg. now destruct o. }
  split.
  { rewrite Hf, Hf'. clear - o. subst wa wb msg. now destruct o. }
  intros f. cbn [renderContent set_isSummarizing set_summary isSummarizing summary
                 JS.truthy_bool].
  f_equal. f_equal. clear - Hm2. unfold JS.or_else, JS.truthy in *.
  now destruct (String.eqb msg EmptyString).
Qed.

Lemma failed_summary_is_a_fallback_witness :
  exists w' msg,
    handleSummarize_resume 0 Rejects inflightPage = (Ok tt, w')
    /\ msg = SUMMARY_ERROR
    /\ SUMMARY_ERROR <> NO_SUMMARY
    /\ (Rejects = Rejects -> In (EvConsoleError "Error summarizing document:") (trace w'))
    /\ JS.truthy (Some msg) = true
    /\ files w'
       = map (fun f => if String.eqb (id f) "a1"
                       then set_isSummarizing (Some false)
                              (set_summary (Some msg) f)
                       else f) (files inflightPage)
    /\ files (snd (handleSummarize_resume 0 (Responds (Some msg)) inflightPage))
       = files w'
    /\ (forall f,
          renderContent
            (set_isSummarizing (Some false) (set_summary (Some msg) f))
            ViewSummary
          = SummaryPanel (SummaryText msg)).
Proof.
  apply (failed_summary_is_a_fallback inflightPage 0 "a1" Rejects).
  - reflexivity.
  - left. reflexivity.
Defined.

(** C4 as stated fails: the record left by a call that rejected is equal
    to the record left by a call that answered with the text of the error
    message, and the whole page left by an empty answer is equal to the page
    left by an answer made of the second message; no state tells a failure
    from a summary. *)
Lemma failure_looks_like_a_summary :
  files (snd (handleSummarize_resume 0 Rejects inflightPage))
  = files (snd (handleSummarize_resume 0 (Responds (Some SUMMARY_ERROR)) inflightPage))
  /\ handleSummarize_resume 0 (Responds None) inflightPage
     = handleSummarize_resume 0 (Responds (Some NO_SUMMARY)) inflightPage
  /\ map isSummarizing (files (snd (handleSummarize_resume 0 Rejects inflightPage)))
     = [Some false]
  /\ map summary (files (snd (handleSummarize_resume 0 Rejects inflightPage)))
     = [Some SUMMARY_ERROR].
Proof. repeat split; vm_compute; reflexivity. Qed.

(** ** Every change of the registry is saved *)

Section Mutations.


Lemma removeFile_eq id_ w :
  removeFile id_ w
  = saveEffect
      (with_files (List.filter (fun f => negb (String.eqb (id f) id_)) (files w))
         match List.find (fun f => String.eqb (id f) id_) (files w) with
         | Some r =>
             match url r with
             | Some u => with_objectURLs (delete u (objectURLs w)) (nextURL w) w
             | None => w
             end
         | None => w
         end).
Proof.
  unfold removeFile, bind at 1, gets.
  destruct (List.find _ (files w)) as [r|]; [|reflexivity].
  unfold bind at 1, revokeObjectURL, modify.
  now destruct (url r).
Qed.


End Mutations.

(** ** Rendering *)

(** C8.  [renderContent] gives one rendering for every document and view
    mode.  In summary mode it is the summary panel, made of the
    [isSummarizing] flag and the summary alone: documents that agree on these
    two are rendered alike whatever their type, name, content or url.  The
    panel is never the rendering of the preview mode, which is one of the
    five type-driven renderings. *)
Theorem renderContent_total_summary_first (file : PreviewFile) (viewMode : ViewMode) :
  (exists! r, renderContent file viewMode = r)
  /\ renderContent file ViewSummary
     = SummaryPanel
         (if JS.truthy_bool (isSummarizing file) then Spinner
          else SummaryText (JS.or_else (summary file) NO_SUMMARY_YET))
  /\ (forall other,
        summary other = summary file ->
        isSummarizing other = isSummarizing file ->
        renderContent other ViewSummary = renderContent file ViewSummary)
  /\ ((exists src, renderContent file ViewPreview = PdfFrame src (name file))
      \/ (exists source, renderContent file ViewPreview = MarkdownBlock source)
      \/ renderContent file ViewPreview = CodeBlock (content file)
      \/ renderContent file ViewPreview = PptxNotice (url file)
      \/ renderContent file ViewPreview = Unavailable).
Proof.
  split.
  { exists (renderContent file viewMode). split; [reflexivity|]. now intros r <-. }
  split; [reflexivity|]. split.
  { intros other Hs Hi. cbn [renderContent]. now rewrite Hs, Hi. }
  cbn [renderContent].
  destruct (JS.includes (type file) "pdf"); [left; now eexists|].
  destruct (JS.endsWith (name file) ".md" || JS.includes (type file) "markdown");
    [right; left; now eexists|].
  destruct (JS.includes (type file) "xml" || JS.includes (type file) "text");
    [now right; right; left|].
  destruct (JS.endsWith (name file) ".pptx"); [now right; right; right; left|].
  now right; right; right; right.
Qed.

(** A restored presentation is shown by the placeholder that offers the
    download. *)
Example restored_pptx_placeholder :
  exists w' f,
    mount (freshPage (session [doc_pptx])) = (Ok tt, w')
    /\ files w' = [f]
    /\ renderContent f ViewPreview = PptxNotice (Some "blob:0")
    /\ blob_bytes <$> (objectURLs w' !! "blob:0") = Some [x50; x4b; x03]%byte.
Proof.
  do 2 eexists. split; [vm_compute; reflexivity|]. split; [reflexivity|].
  split; vm_compute; reflexivity.
Qed.

(** A Markdown file is stored verbatim and summarized by the stubbed
    answer. *)
Example markdown_ingest_and_summary :
  exists w1 f w2 w3,
    handleFiles same_draw (Some [sample_md]) (with_isRestoring false (freshPage ∅))
    = (Ok tt, w1)
    /\ files w1 = [f]
    /\ content f = Some "# T" /\ summary f = None /\ isSummarizing f = None
    /\ handleSummarize f w1 = (Ok tt, w2)
    /\ map isSummarizing (files w2) = [Some true]
    /\ handleSummarize_resume 0 (Responds (Some "Short summary.")) w2 = (Ok tt, w3)
    /\ map summary (files w3) = [Some "Short summary."]
    /\ map isSummarizing (files w3) = [Some false]
    /\ pending w3 = [].
Proof.
  do 4 eexists. split; [vm_compute; reflexivity|]. split; [reflexivity|].
  do 3 (split; [reflexivity|]). split; [vm_compute; reflexivity|].
  split; [reflexivity|]. split; [vm_compute; reflexivity|].
  repeat split; reflexivity.
Qed.

(** * Further properties of the code *)

(** ** Exceptions stay inside *)

Section NoThrow.

Lemma saveEffect_returns w : exists w', saveEffect w = (Ok tt, w').
Proof.
  unfold saveEffect.
  destruct (saveEffect_of_frame (files w) (isRestoring w) w) as (w' & H & _).
  now exists w'.
Qed.

Lemma mount_returns w :
  exists w', mount w = (Ok tt, w') /\ isRestoring w' = false.
Proof.
  unfold mount, bind at 1.
  destruct (restoreEffect_frame w) as (w1 & -> & Hi & _).
  unfold bind at 1.
  destruct (saveEffect_of_frame (files w) (isRestoring w) w1)
    as (w2 & -> & _ & Hi2 & _).
  unfold saveEffect.
  destruct (saveEffect_of_frame (files w2) (isRestoring w2) w2)
    as (w3 & -> & _ & Hi3 & _).
  exists w3. split; [reflexivity|]. now rewrite Hi3, Hi2.
Qed.

End NoThrow.

(** X1.  On a page that the browser allows its storage, no exception
    leaves an effect or a handler: whatever is stored, dropped, answered or
    removed, the mount, the two effects and the four handlers return
    normally; what [atob], [JSON.parse], [setItem] and the remote call throw
    is caught on the way.  (The read of [window.localStorage] itself, which
    throws where storage is denied and stands before the [try] in the
    restore effect, is taken to succeed, as is the reading of a dropped
    file.) *)
Theorem nothing_is_thrown (w : World) :
  fst (mount w) = Ok tt
  /\ fst (restoreEffect w) = Ok tt
  /\ fst (saveEffect w) = Ok tt
  /\ (forall random newFiles, fst (handleFiles random newFiles w) = Ok tt)
  /\ (forall file, fst (handleSummarize file w) = Ok tt)
  /\ (forall k o, fst (handleSummarize_resume k o w) = Ok tt)
  /\ (forall id_, fst (removeFile id_ w) = Ok tt).
Proof.
  split; [destruct (mount_returns w) as (w' & -> & _); reflexivity|].
  split; [destruct (restoreEffect_frame w) as (w' & -> & _); reflexivity|].
  split; [destruct (saveEffect_returns w) as (w' & ->); reflexivity|].
  split.
  { intros random [fileList|]; [|reflexivity].
    destruct (handleFiles_spec random fileList w) as (ps & us & n & -> & _).
    now destruct (saveEffect_returns (with_files (files w ++ ps) (with_objectURLs us n w)))
      as (w' & ->). }
  split.
  { intros file. rewrite handleSummarize_eq.
    match goal with |- fst (saveEffect ?x) = _ =>
      now destruct (saveEffect_returns x) as (w' & ->) end. }
  split.
  { intros k o. destruct (pending w !! k) as [file_id|] eqn:E.
    - rewrite (handleSummarize_resume_eq k o w file_id E). cbv zeta.
      match goal with |- fst (saveEffect ?x) = _ =>
        now destruct (saveEffect_returns x) as (w' & ->) end.
    - unfold handleSummarize_resume, bind, gets. now rewrite E. }
  intros id_. rewrite removeFile_eq.
  match goal with |- fst (saveEffect ?x) = _ =>
    now destruct (saveEffect_returns x) as (w' & ->) end.
Qed.

(** ** A restore that fails *)

Section FailedRestore.

(** The page a failed restore leaves before the save effect runs. *)
Lemma restoreEffect_failed w stored :
  localStorage w !! STORAGE_KEY = Some stored ->
  stored = TextNotJSON
  \/ (exists fs f, stored = TextOfJSON fs /\ In f fs /\ malformed f = true) ->
  exists us n,
    restoreEffect w
    = (Ok tt, with_isRestoring false
                (emit (EvConsoleError "Failed to restore session")
                   (with_objectURLs us n w))).
Proof.
  intros Hst [->|(fs & f & -> & Hin & Hbad)].
  - rewrite (restoreEffect_not_json w Hst).
    exists (objectURLs w), (nextURL w). now destruct w.
  - rewrite (restoreEffect_session w fs Hst).
    destruct (mapM_restoreFile_throws fs f w Hin Hbad) as (e & w1 & Hm).
    destruct (mapM_restoreFile_urls fs w) as (r & us & n & Hu).
    rewrite Hm in Hu. injection Hu as _ ->. rewrite Hm. now exists us, n.
Qed.

End FailedRestore.

(** X2.  A stored session that cannot be restored is lost at once: when
    the stored text is not JSON, or holds a record whose payload [atob]
    refuses, the mount logs the error, leaves the registry as it is, and the
    save effect that follows replaces the stored session by the registry's
    records, the empty list on a fresh page. *)
Theorem failed_restore_overwrites_session (w : World) (stored : Text) :
  isRestoring w = true ->
  localStorage w !! STORAGE_KEY = Some stored ->
  stored = TextNotJSON
  \/ (exists fs f, stored = TextOfJSON fs /\ In f fs /\ malformed f = true) ->
  withinQuota w STORAGE_KEY (JSON_stringify (map (set_url None) (files w))) = true ->
  exists w',
    mount w = (Ok tt, w')
    /\ files w' = files w
    /\ In (EvConsoleError "Failed to restore session") (trace w')
    /\ localStorage w' !! STORAGE_KEY
       = Some (TextOfJSON (map (set_url None) (files w))).
Proof.
  intros Hr Hst Hfail Hq.
  destruct (restoreEffect_failed w stored Hst Hfail) as (us & n & Hre).
  rewrite (mount_fresh w Hr), Hre. cbn [snd]. unfold saveEffect.
  cbn [isRestoring with_isRestoring files emit with_objectURLs].
  rewrite saveEffect_of_stored by exact Hq.
  eexists. split; [reflexivity|]. split; [reflexivity|]. split.
  - cbn. apply in_or_app. left. apply in_or_app. right. now left.
  - cbn. apply lookup_insert_eq.
Qed.

Lemma failed_restore_overwrites_session_witness :
  exists w',
    mount (freshPage (session [doc_md; doc_bad_pdf])) = (Ok tt, w')
    /\ files w' = []
    /\ In (EvConsoleError "Failed to restore session") (trace w')
    /\ localStorage w' !! STORAGE_KEY = Some (TextOfJSON []).
Proof.
  apply (failed_restore_overwrites_session
           (freshPage (session [doc_md; doc_bad_pdf]))
           (TextOfJSON [doc_md; doc_bad_pdf])).
  - reflexivity.
  - vm_compute. reflexivity.
  - right. exists [doc_md; doc_bad_pdf], doc_bad_pdf.
    split; [reflexivity|]. split; [right; left; reflexivity|].
    vm_compute. reflexivity.
  - reflexivity.
Defined.

(** ** Restoring what the page itself has stored *)

Section Reload.

Lemma set_url_None_id f : url f = None -> set_url None f = f.
Proof. destruct f. cbn. now intros ->. Qed.

Lemma map_set_url_None_id fs :
  Forall (fun f => url f = None) fs -> map (set_url None) fs = fs.
Proof.
  induction 1 as [|f fs Hf _ IH]; [reflexivity|].
  cbn [map]. now rewrite set_url_None_id, IH.
Qed.

(** The text branch of [restoreFile]. *)
Lemma restoreFile_text f w :
  JS.truthy (content f) = true ->
  JS.includes (type f) "pdf" = false ->
  JS.endsWith (name f) ".pptx" = false ->
  let u := "blob:" +:+ pretty (nextURL w) in
  restoreFile f w
  = (Ok (set_url (Some u) f),
     with_objectURLs
       (<[u := Blob_of_string (the (content f)) (type f)]> (objectURLs w))
       (nextURL w + 1) w).
Proof.
  intros Ht Hp Hx u. unfold restoreFile. now rewrite Ht, Hp, Hx.
Qed.

Lemma mediaType_not_pdf file :
  JS.includes (file_type file) "pdf" = false ->
  JS.includes (mediaType file) "pdf" = false.
Proof.
  intros H. unfold mediaType, JS.or_else.
  destruct (String.eqb _ _); [reflexivity|exact H].
Qed.

End Reload.

(** X3.  Restarting the page does not change a session the page wrote:
    when the stored records have no [url], as the save effect writes them,
    every payload decodes and the store takes the write, the mount brings the
    records back up to [url] and the save that follows it leaves
    [localStorage] exactly as it was. *)
Theorem reload_keeps_store (w : World) (fs : list PreviewFile) :
  isRestoring w = true ->
  localStorage w !! STORAGE_KEY = Some (TextOfJSON fs) ->
  Forall (fun f => url f = None) fs ->
  Forall (fun f => malformed f = false) fs ->
  withinQuota w STORAGE_KEY (TextOfJSON fs) = true ->
  exists w',
    mount w = (Ok tt, w')
    /\ Forall2 same_but_url fs (files w')
    /\ localStorage w' = localStorage w.
Proof.
  intros Hr Hst Hurl Hok Hq.
  destruct (mapM_restoreFile_ok fs w Hok) as (fs' & w1 & Hm & Hfs').
  destruct (mapM_restoreFile_urls fs w) as (r & us & n & Hu).
  rewrite Hm in Hu. injection Hu as _ ->.
  rewrite (map_set_url_None_id fs Hurl) in Hfs'.
  rewrite (mount_fresh w Hr), (restoreEffect_session w fs Hst), Hm. cbn [snd].
  unfold saveEffect.
  cbn [isRestoring with_isRestoring files with_files].
  rewrite saveEffect_of_stored; [|unfold JSON_stringify; now rewrite Hfs'].
  eexists. split; [reflexivity|]. split.
  - cbn. apply map_strip_same. rewrite Hfs'. symmetry.
    now apply map_set_url_None_id.
  - cbn. unfold JSON_stringify. rewrite Hfs'. now apply insert_id.
Qed.

Lemma reload_keeps_store_witness :
  exists w',
    mount (freshPage (session [doc_md; doc_pptx])) = (Ok tt, w')
    /\ Forall2 same_but_url [doc_md; doc_pptx] (files w')
    /\ localStorage w' = session [doc_md; doc_pptx].
Proof.
  apply (reload_keeps_store (freshPage (session [doc_md; doc_pptx]))
           [doc_md; doc_pptx]).
  - reflexivity.
  - vm_compute. reflexivity.
  - repeat constructor.
  - repeat constructor; vm_compute; reflexivity.
  - reflexivity.
Defined.

(** X4.  A text file comes back character for character: when a file is
    text-like for ingestion, its text is not empty, its type does not
    contain [pdf] and its name does not end in [.pptx], the record holds the
    text verbatim and the restore gives it an object URL whose blob is made
    of that very text, under the record's type as [new Blob] keeps it. *)
Theorem text_file_round_trip (file : File) (rnd : string) (w w' : World) :
  isTextFile file = true ->
  file_text file <> EmptyString ->
  JS.includes (file_type file) "pdf" = false ->
  JS.endsWith (file_name file) ".pptx" = false ->
  exists rec w1 rec' w2 u,
    processFile rnd file w = (Ok rec, w1)
    /\ content rec = Some (file_text file)
    /\ restoreFile (set_url None rec) w' = (Ok rec', w2)
    /\ url rec' = Some u
    /\ objectURLs w2 !! u
       = Some (Blob_of_string (file_text file) (mediaType file)).
Proof.
  intros Htext Hne Hpdf Hpptx.
  unfold processFile, bind, createObjectURL, ret. rewrite Htext.
  set (rec := {| id := _ |}).
  assert (Ht : JS.truthy (content (set_url None rec)) = true).
  { cbn. destruct (String.eqb_spec (file_text file) EmptyString); [contradiction|reflexivity]. }
  pose proof (restoreFile_text (set_url None rec) w' Ht
                (mediaType_not_pdf file Hpdf) Hpptx) as Hr.
  cbv zeta in Hr. do 5 eexists. split; [reflexivity|]. split; [reflexivity|].
  split; [exact Hr|]. split; [reflexivity|]. cbn. apply lookup_insert_eq.
Qed.

Lemma text_file_round_trip_witness :
  exists rec w1 rec' w2 u,
    processFile (same_draw 0) sample_md (freshPage ∅) = (Ok rec, w1)
    /\ content rec = Some "# T"
    /\ restoreFile (set_url None rec) (freshPage ∅) = (Ok rec', w2)
    /\ url rec' = Some u
    /\ objectURLs w2 !! u
       = Some (Blob_of_string "# T" (mediaType sample_md)).
Proof.
  apply (text_file_round_trip sample_md (same_draw 0) (freshPage ∅) (freshPage ∅));
    [reflexivity|discriminate|reflexivity|reflexivity].
Defined.

(** X5.  The payload need not be a data URL: a record of a PDF type or a
    [.pptx] name whose content is bare Base64, with no comma in it, is
    decoded as a whole, and its object URL resolves to a blob of the bytes,
    whose type is the record's as [new Blob] keeps it: in lower case, or
    empty when it has a code unit outside U+0020..U+007E. *)
Theorem bare_base64_is_decoded (f : PreviewFile) (bs : list byte) (w : World) :
  content f = Some (String.string_of_list_ascii (Base64.encode bs)) ->
  bs <> [] ->
  JS.includes (type f) "pdf" || JS.endsWith (name f) ".pptx" = true ->
  exists f' w',
    restoreFile f w = (Ok f', w')
    /\ same_but_url f f'
    /\ resolves_to w' f' bs.
Proof.
  intros Hc Hne Hbin. unfold restoreFile. rewrite Hc.
  assert (Ht : JS.truthy (Some (String.string_of_list_ascii (Base64.encode bs))) = true).
  { cbn. destruct (String.eqb_spec (String.string_of_list_ascii (Base64.encode bs))
                     EmptyString) as [E|_]; [|reflexivity].
    now apply encode_nonempty in E. }
  rewrite Ht. cbn [andb the default from_option Datatypes.id].
  rewrite <- negb_orb, Hbin. cbn [negb].
  rewrite (split_comma_none _ (encode_no_comma bs)).
  cbn [lookup list_lookup JS.or_else].
  unfold bind, lift. rewrite atob_encode, Uint8Array_of_binary_string.
  do 2 eexists. split; [reflexivity|]. split.
  - unfold same_but_url. cbn. auto 10.
  - eexists. split; [reflexivity|]. cbn. apply lookup_insert_eq.
Qed.

Lemma bare_base64_is_decoded_witness :
  exists f' w',
    restoreFile bare_pdf (freshPage ∅) = (Ok f', w')
    /\ same_but_url bare_pdf f'
    /\ resolves_to w' f' [x25; x50; x44; x46]%byte.
Proof.
  apply (bare_base64_is_decoded bare_pdf [x25; x50; x44; x46]%byte (freshPage ∅));
    [reflexivity|discriminate|reflexivity].
Defined.

(** ** What [atob] refuses *)

Section BadPayload.

Import Base64.

Lemma strip_whitespace_keeps c d :
  is_whitespace c = false -> In c d -> In c (strip_whitespace d).
Proof.
  intros Hc Hin. unfold strip_whitespace. apply filter_In.
  split; [exact Hin|]. now rewrite Hc.
Qed.

Lemma strip_padding_keeps c d :
  Ascii.eqb c pad = false -> In c d -> In c (strip_padding d).
Proof.
  intros Hc Hin. unfold strip_padding.
  destruct (length d mod 4 =? 0)%nat; [|exact Hin].
  rewrite <- (rev_involutive d) in Hin. apply in_rev in Hin.
  destruct (rev d) as [|c1 [|c2 r]] eqn:E.
  - destruct Hin.
  - destruct Hin as [->|[]]. rewrite Hc.
    rewrite <- (rev_involutive d), E. now left.
  - destruct (Ascii.eqb_spec c1 pad) as [->|_].
    + destruct Hin as [<-|Hin]; [now rewrite Ascii.eqb_refl in Hc|].
      destruct (Ascii.eqb_spec c2 pad) as [->|_].
      * destruct Hin as [<-|Hin]; [now rewrite Ascii.eqb_refl in Hc|].
        now apply in_rev in Hin.
      * now apply in_rev in Hin.
    + rewrite <- (rev_involutive d), E. apply in_rev.
      rewrite rev_involutive. exact Hin.
Qed.

Lemma values_None c d : value c = None -> In c d -> values d = None.
Proof.
  intros Hc. induction d as [|x d IH]; intros Hin; [destruct Hin|].
  cbn [values]. destruct Hin as [->|Hin].
  - now rewrite Hc.
  - rewrite (IH Hin). now destruct (value x).
Qed.

(** One character that is neither of the alphabet, nor white space, nor
    the pad makes [atob] throw. *)
Lemma decode_bad_character c d :
  is_whitespace c = false -> Ascii.eqb c pad = false -> value c = None ->
  In c d ->
  decode d = Throw InvalidCharacterError.
Proof.
  intros Hw Hp Hv Hin. unfold decode.
  destruct (_ =? 1)%nat; [reflexivity|].
  rewrite (values_None c); auto using strip_padding_keeps, strip_whitespace_keeps.
Qed.

Lemma atob_data_url s : atob ("data:" +:+ s) = Throw InvalidCharacterError.
Proof.
  unfold atob.
  rewrite (decode_bad_character ":"%char); [reflexivity..|].
  change (String.list_ascii_of_string ("data:" +:+ s))
    with ("d"%char :: "a"%char :: "t"%char :: "a"%char :: ":"%char
          :: String.list_ascii_of_string s).
  cbn [In]. auto 10.
Qed.

(** The record of an empty binary file is one that the restore cannot
    decode. *)
Lemma empty_binary_record_malformed (f : PreviewFile) (file : File) :
  content f = Some (readAsDataURL file) ->
  file_bytes file = [] ->
  JS.includes (file_type file) "," = false ->
  JS.includes (type f) "pdf" || JS.endsWith (name f) ".pptx" = true ->
  malformed f = true.
Proof.
  intros Hc Hb Hcomma Hbin. unfold malformed, storedAsBase64, encodedPayload.
  rewrite Hc, readAsDataURL_truthy, <- negb_orb, Hbin. cbn [negb andb the default
    from_option Datatypes.id].
  rewrite (readAsDataURL_split file Hcomma), Hb.
  cbn [Base64.encode String.string_of_list_ascii lookup list_lookup JS.or_else
       String.eqb].
  unfold readAsDataURL. now rewrite atob_data_url.
Qed.

(** The mount over a session that cannot be restored. *)
Lemma mount_after_failed_restore w stored :
  isRestoring w = true ->
  localStorage w !! STORAGE_KEY = Some stored ->
  stored = TextNotJSON
  \/ (exists fs f, stored = TextOfJSON fs /\ In f fs /\ malformed f = true) ->
  exists w',
    mount w = (Ok tt, w')
    /\ files w' = files w
    /\ In (EvConsoleError "Failed to restore session") (trace w').
Proof.
  intros Hr Hst Hfail.
  destruct (restoreEffect_failed w stored Hst Hfail) as (us & n & Hre).
  rewrite (mount_fresh w Hr), Hre. cbn [snd]. unfold saveEffect.
  set (w1 := with_isRestoring false _).
  destruct (saveEffect_of_frame (files w1) (isRestoring w1) w1) as (w' & Hs & Hf & _).
  destruct (saveEffect_of_trace (files w1) (isRestoring w1) w1) as (extra & Ht).
  rewrite Hs in Ht. cbn [snd] in Ht.
  exists w'. split; [exact Hs|]. split; [now rewrite Hf|].
  rewrite Ht. apply in_or_app. left. cbn. apply in_or_app. right. now left.
Qed.

End BadPayload.

(** X6.  One empty PDF or presentation costs the whole session.  On a page
    whose store takes every write, ingesting a binary file of no bytes, of a
    PDF type or a [.pptx] name, adds its record and saves it with the others;
    at the next page load the restore stops at that record, and the registry
    comes up empty, whatever else was saved. *)
Theorem empty_binary_file_breaks_reload
  (random : nat -> string) (file : File) (w : World) :
  isRestoring w = false ->
  (forall t, withinQuota w STORAGE_KEY t = true) ->
  file_bytes file = [] ->
  isTextFile file = false ->
  JS.includes (file_type file) "pdf" || JS.endsWith (file_name file) ".pptx" = true ->
  JS.includes (file_type file) "," = false ->
  exists w1 w2,
    handleFiles random (Some [file]) w = (Ok tt, w1)
    /\ length (files w1) = S (length (files w))
    /\ mount (pageLoad w1) = (Ok tt, w2)
    /\ files w2 = []
    /\ In (EvConsoleError "Failed to restore session") (trace w2).
Proof.
  intros Hr Hq Hb Htext Hkind Hcomma.
  destruct (handleFiles_spec random [file] w) as (ps & us & n & Hh & Hps & _).
  inversion Hps as [|? rec ? ? Hrec Hnil]; subst. inversion Hnil; subst.
  destruct Hrec as (Hn & Ht & _ & Hc & _). rewrite Htext in Hc.
  rewrite Hh. unfold saveEffect.
  cbn [isRestoring with_files with_objectURLs files]. rewrite Hr.
  rewrite saveEffect_of_stored by apply Hq.
  set (payload := JSON_stringify _). set (w1 := emit _ _).
  assert (Hbad : malformed (set_url None rec) = true).
  { apply (empty_binary_record_malformed _ file); auto.
    cbn [set_url type name]. rewrite Hn, Ht.
    apply orb_true_iff in Hkind as [Hpdf|Hpptx]; apply orb_true_iff;
      [left; now apply mediaType_pdf|now right]. }
  destruct (mount_after_failed_restore (pageLoad w1) payload eq_refl) as (w2 & Hm & Hf & He).
  { cbn. apply lookup_insert_eq. }
  { right. exists (map (set_url None) (files w ++ [rec])), (set_url None rec).
    split; [reflexivity|]. split; [|exact Hbad].
    apply in_map, in_or_app. right. now left. }
  exists w1, w2. split; [reflexivity|]. split.
  { cbn. rewrite length_app. cbn. lia. }
  split; [exact Hm|]. split; [exact Hf|exact He].
Qed.

Lemma empty_binary_file_breaks_reload_witness :
  exists w1 w2,
    handleFiles same_draw (Some [empty_pdf]) (pageWith doc_md) = (Ok tt, w1)
    /\ length (files w1) = 2%nat
    /\ mount (pageLoad w1) = (Ok tt, w2)
    /\ files w2 = []
    /\ In (EvConsoleError "Failed to restore session") (trace w2).
Proof.
  apply (empty_binary_file_breaks_reload same_draw empty_pdf (pageWith doc_md));
    reflexivity.
Defined.

(** ** Summaries and the other documents *)

Section SummaryFrame.

Lemma map_touched_only file_id (g : PreviewFile -> PreviewFile) fs :
  (forall f, same_document f (g f)) ->
  Forall2 (touched_only file_id) fs
    (map (fun f => if String.eqb (id f) file_id then g f else f) fs).
Proof.
  intros Hg. induction fs as [|f fs IH]; [constructor|].
  cbn [map]. constructor; [|exact IH].
  destruct (String.eqb (id f) file_id) eqn:E; split.
  - apply Hg.
  - intros H. congruence.
  - unfold same_document. auto 10.
  - reflexivity.
Qed.

Lemma map_untouched file_id (g : PreviewFile -> PreviewFile) fs :
  (forall f, In f fs -> String.eqb (id f) file_id = false) ->
  map (fun f => if String.eqb (id f) file_id then g f else f) fs = fs.
Proof.
  induction fs as [|f fs IH]; intros H; [reflexivity|].
  cbn [map]. rewrite (H f) by now left.
  f_equal. apply IH. intros x Hx. apply H. now right.
Qed.

Lemma saveEffect_files w : files (snd (saveEffect w)) = files w.
Proof.
  unfold saveEffect.
  now destruct (saveEffect_of_frame (files w) (isRestoring w) w) as (w' & -> & Hf & _).
Qed.

Lemma saveEffect_pending w : pending (snd (saveEffect w)) = pending w.
Proof.
  unfold saveEffect.
  now destruct (saveEffect_of_frame (files w) (isRestoring w) w)
    as (w' & -> & _ & _ & Hp & _).
Qed.

Lemma saveEffect_objectURLs w : objectURLs (snd (saveEffect w)) = objectURLs w.
Proof.
  unfold saveEffect.
  now destruct (saveEffect_of_frame (files w) (isRestoring w) w)
    as (w' & -> & _ & _ & _ & Hu & _).
Qed.

Lemma handleSummarize_resume_files k o w file_id :
  pending w !! k = Some file_id ->
  exists msg,
    files (snd (handleSummarize_resume k o w))
    = map (fun f => if String.eqb (id f) file_id
                    then set_isSummarizing (Some false) (set_summary (Some msg) f)
                    else f) (files w)
    /\ pending (snd (handleSummarize_resume k o w)) = delete k (pending w).
Proof.
  intros Hp. rewrite (handleSummarize_resume_eq k o w file_id Hp). cbv zeta.
  rewrite saveEffect_files, saveEffect_pending.
  exists (match o with
          | Rejects => SUMMARY_ERROR
          | Responds text => JS.or_else text NO_SUMMARY
          end).
  split; now destruct o.
Qed.

End SummaryFrame.

(** X7.  Asking for a summary and receiving one change nothing but the
    summary and the [isSummarizing] flag, and only of the documents under the
    id in question: every record keeps its place, its id, name, type, size,
    url and content, and the records under other ids are left exactly as
    they are. *)
Theorem summaries_keep_documents (w : World) :
  (forall file,
      Forall2 (touched_only (id file)) (files w)
        (files (snd (handleSummarize file w))))
  /\ (forall k o file_id,
        pending w !! k = Some file_id ->
        Forall2 (touched_only file_id) (files w)
          (files (snd (handleSummarize_resume k o w)))).
Proof.
  split.
  - intros file. rewrite handleSummarize_eq, saveEffect_files.
    cbn [files with_pending emit with_files].
    apply map_touched_only. intros f. unfold same_document. cbn. auto 10.
  - intros k o file_id Hp.
    destruct (handleSummarize_resume_files k o w file_id Hp) as (msg & -> & _).
    apply map_touched_only. intros f. unfold same_document. cbn. auto 10.
Qed.

(** X8.  An answer that arrives for a document no longer in the registry
    changes no record: the awaited call is taken off the list, nothing is
    thrown, and the registry is what it was. *)
Theorem stale_answer_changes_no_record
  (w : World) (k : nat) (o : RemoteOutcome) (file_id : string) :
  pending w !! k = Some file_id ->
  (forall f, In f (files w) -> String.eqb (id f) file_id = false) ->
  fst (handleSummarize_resume k o w) = Ok tt
  /\ files (snd (handleSummarize_resume k o w)) = files w
  /\ pending (snd (handleSummarize_resume k o w)) = delete k (pending w).
Proof.
  intros Hp Hgone.
  destruct (handleSummarize_resume_files k o w file_id Hp) as (msg & Hf & Hpend).
  split.
  - rewrite (handleSummarize_resume_eq k o w file_id Hp). cbv zeta.
    unfold saveEffect.
    match goal with |- fst (saveEffect_of ?a ?b ?c) = _ =>
      now destruct (saveEffect_of_frame a b c) as (w' & -> & _) end.
  - split; [|exact Hpend]. rewrite Hf. now apply map_untouched.
Qed.

Lemma stale_answer_changes_no_record_witness :
  fst (handleSummarize_resume 0 (Responds (Some "late")) stalePage) = Ok tt
  /\ files (snd (handleSummarize_resume 0 (Responds (Some "late")) stalePage))
     = [doc_idle]
  /\ pending (snd (handleSummarize_resume 0 (Responds (Some "late")) stalePage))
     = [].
Proof.
  apply (stale_answer_changes_no_record stalePage 0 (Responds (Some "late")) "zz").
  - reflexivity.
  - intros f [<-|[]]. reflexivity.
Defined.

(** ** Removal *)

Section Removal.

Lemma removeFile_files id_ w :
  files (snd (removeFile id_ w))
  = List.filter (fun f => negb (String.eqb (id f) id_)) (files w).
Proof.
  rewrite removeFile_eq, saveEffect_files. reflexivity.
Qed.

Lemma removeFile_objectURLs id_ w :
  objectURLs (snd (removeFile id_ w))
  = match List.find (fun f => String.eqb (id f) id_) (files w) with
    | Some r =>
        match url r with
        | Some u => delete u (objectURLs w)
        | None => objectURLs w
        end
    | None => objectURLs w
    end.
Proof.
  rewrite removeFile_eq, saveEffect_objectURLs. cbn [objectURLs with_files].
  destruct (List.find _ _) as [r|]; [|reflexivity]. now destruct (url r).
Qed.

Lemma filter_sublist {A} (p : A -> bool) (l : list A) :
  sublist (List.filter p l) l.
Proof.
  induction l as [|x l IH]; [constructor|].
  cbn [List.filter]. destruct (p x); now constructor.
Qed.

Lemma filter_all {A} (p : A -> bool) (l : list A) :
  (forall x, In x l -> p x = true) -> List.filter p l = l.
Proof.
  induction l as [|x l IH]; intros H; [reflexivity|].
  cbn [List.filter]. rewrite (H x) by now left.
  f_equal. apply IH. intros y Hy. apply H. now right.
Qed.

Lemma find_absent {A} (p : A -> bool) (l : list A) :
  (forall x, In x l -> p x = false) -> List.find p l = None.
Proof.
  induction l as [|x l IH]; intros H; [reflexivity|].
  cbn [List.find]. rewrite (H x) by now left.
  apply IH. intros y Hy. apply H. now right.
Qed.

End Removal.

(** X9.  Removing by id takes out every record under that id and no other:
    the records that stay are those with another id, in the order they had;
    the object URL of the first record under the id is revoked; and when no
    record has the id, neither the registry nor the object URLs change. *)
Theorem removeFile_removes_and_revokes (w : World) (id_ : string) :
  (forall f, In f (files (snd (removeFile id_ w)))
             <-> In f (files w) /\ id f <> id_)
  /\ sublist (files (snd (removeFile id_ w))) (files w)
  /\ (forall r u,
        List.find (fun f => String.eqb (id f) id_) (files w) = Some r ->
        url r = Some u ->
        objectURLs (snd (removeFile id_ w)) !! u = None)
  /\ ((forall f, In f (files w) -> id f <> id_) ->
      files (snd (removeFile id_ w)) = files w
      /\ objectURLs (snd (removeFile id_ w)) = objectURLs w).
Proof.
  rewrite removeFile_files, removeFile_objectURLs. split.
  { intros f. rewrite filter_In, negb_true_iff, String.eqb_neq. reflexivity. }
  split; [apply filter_sublist|]. split.
  { intros r u -> ->. apply lookup_delete_eq. }
  intros Habsent. split.
  - apply filter_all. intros f Hf. apply negb_true_iff, String.eqb_neq. now apply Habsent.
  - rewrite find_absent; [reflexivity|].
    intros f Hf. apply String.eqb_neq. now apply Habsent.
Qed.

(** X10.  Only the first record under an id has its object URL revoked.
    When a later record carries the same id, removal takes it out of the
    registry as well, but its object URL, if it is another one, stays
    registered with nothing left to revoke it. *)
Theorem removeFile_revokes_first_only
  (w : World) (id_ : string) (r f : PreviewFile) (u : string) (b : Blob) :
  List.find (fun x => String.eqb (id x) id_) (files w) = Some r ->
  In f (files w) ->
  id f = id_ ->
  url f = Some u ->
  url r <> Some u ->
  objectURLs w !! u = Some b ->
  ~ In f (files (snd (removeFile id_ w)))
  /\ objectURLs (snd (removeFile id_ w)) !! u = Some b.
Proof.
  intros Hfind Hin Hid Hu Hne Hb.
  rewrite removeFile_files, removeFile_objectURLs, Hfind. split.
  - rewrite filter_In, negb_true_iff, String.eqb_neq. now intros [_ H].
  - destruct (url r) as [u'|]; [|exact Hb].
    rewrite lookup_delete_ne; [exact Hb|]. congruence.
Qed.

Lemma removeFile_revokes_first_only_witness :
  ~ In doc_twin (files (snd (removeFile "a1" twinsPage)))
  /\ objectURLs (snd (removeFile "a1" twinsPage)) !! "blob:1"
     = Some (Blob_of_string "x" "text/markdown").
Proof.
  apply (removeFile_revokes_first_only twinsPage "a1" doc_idle doc_twin "blob:1").
  - reflexivity.
  - right. left. reflexivity.
  - reflexivity.
  - reflexivity.
  - discriminate.
  - vm_compute. reflexivity.
Defined.

(** ** The icon and the preview *)

(** X11.  The header's icon and the preview agree on PDF and Markdown: the
    card has the PDF icon exactly when the preview is the PDF frame, and the
    Markdown icon exactly when the preview is the Markdown block.  The
    download placeholder always comes with the presentation icon; the
    converse fails, as the icon also looks at the type: a document whose type
    says [presentation] but whose name does not end in [.pptx] has the
    presentation icon over the "not available" preview. *)
Theorem icon_agrees_with_rendering (file : PreviewFile) :
  ((exists src, renderContent file ViewPreview = PdfFrame src (name file))
   <-> getFileIcon file (type file) = "fa-file-pdf text-red-500")
  /\ ((exists source, renderContent file ViewPreview = MarkdownBlock source)
      <-> getFileIcon file (type file) = "fa-file-code text-blue-500")
  /\ (renderContent file ViewPreview = PptxNotice (url file) ->
      getFileIcon file (type file) = "fa-file-powerpoint text-orange-600")
  /\ (JS.includes (type file) "presentation" = true ->
      JS.includes (type file) "pdf" = false ->
      JS.includes (type file) "markdown" = false ->
      JS.includes (type file) "xml" = false ->
      JS.includes (type file) "text" = false ->
      JS.endsWith (name file) ".md" = false ->
      JS.endsWith (name file) ".pptx" = false ->
      getFileIcon file (type file) = "fa-file-powerpoint text-orange-600"
      /\ renderContent file ViewPreview = Unavailable).
Proof.
  unfold getFileIcon. cbn [renderContent].
  destruct (JS.includes (type file) "pdf");
    destruct (JS.endsWith (name file) ".md");
    destruct (JS.includes (type file) "markdown");
    destruct (JS.includes (type file) "xml");
    destruct (JS.includes (type file) "text");
    destruct (JS.includes (type file) "presentation");
    destruct (JS.endsWith (name file) ".pptx");
    cbn [orb];
    (split; [split; [intros [src H]; (reflexivity || discriminate H)
                    |intros H; (discriminate H || now eexists)]|]);
    (split; [split; [intros [src H]; (reflexivity || discriminate H)
                    |intros H; (discriminate H || now eexists)]|]);
    (split; [intros H; (reflexivity || discriminate H)
            |intros; (discriminate || now split)]).
Qed.

(** ** What is sent for a short text *)

(** X12.  A text that fits is sent whole: for a document whose type does
    not contain [pdf] and whose content is not empty and has at most 5000
    characters, the one remote call that [handleSummarize] makes carries the
    file name and the content unchanged. *)
Theorem short_text_is_sent_whole (file : PreviewFile) (c : string) (w : World) :
  JS.includes (type file) "pdf" = false ->
  content file = Some c ->
  c <> EmptyString ->
  (String.length c <= 5000)%nat ->
  remote_calls (snd (handleSummarize file w))
  = remote_calls w ++ [EvGenerateContent (name file) c].
Proof.
  intros Hpdf Hc Hne Hlen.
  destruct (handleSummarize_calls file w) as (w' & Hh & Hcalls & _).
  rewrite Hh. cbn [snd]. rewrite Hcalls.
  unfold textToSummarize, JS.or_else. rewrite Hpdf, Hc.
  destruct (String.eqb_spec c EmptyString); [contradiction|].
  now rewrite substring0_short.
Qed.

Lemma short_text_is_sent_whole_witness :
  remote_calls (snd (handleSummarize doc_idle (pageWith doc_idle)))
  = remote_calls (pageWith doc_idle) ++ [EvGenerateContent "notes.md" "# T"].
Proof.
  apply (short_text_is_sent_whole doc_idle "# T" (pageWith doc_idle)).
  - reflexivity.
  - reflexivity.
  - discriminate.
  - apply Nat.leb_le. vm_compute. reflexivity.
Defined.

(** ** A save after every change *)


(** ** Object URLs that resolve *)

Section ObjectURLs.

Lemma blob_key_inj (n m : N) :
  "blob:" +:+ pretty n = "blob:" +:+ pretty m -> n = m.
Proof.
  intros H.
  change (String "b" (String "l" (String "o" (String "b" (String ":" (pretty n)))))
          = String "b" (String "l" (String "o" (String "b" (String ":" (pretty m))))))
    in H.
  injection H as H. now apply (inj pretty) in H.
Qed.

Lemma issues_urls_refl w : issues_urls w w.
Proof.
  split; [now destruct w|]. split; [lia|]. reflexivity.
Qed.

Lemma issues_urls_one w b :
  issues_urls w
    (with_objectURLs (<["blob:" +:+ pretty (nextURL w) := b]> (objectURLs w))
       (nextURL w + 1) w).
Proof.
  split; [reflexivity|]. split; [cbn; lia|].
  intros u Hu. cbn. apply lookup_insert_ne. intros E.
  apply (Hu (nextURL w)); [cbn; lia|now symmetry].
Qed.

Lemma issues_urls_trans w1 w2 w3 :
  issues_urls w1 w2 -> issues_urls w2 w3 -> issues_urls w1 w3.
Proof.
  intros (E1 & L1 & F1) (E2 & L2 & F2). split.
  - rewrite E2, E1. reflexivity.
  - split; [lia|]. intros u Hu.
    rewrite F2, F1; [reflexivity| |]; intros m Hm; apply Hu; lia.
Qed.

(** A URL issued before keeps its blob. *)
Lemma issues_urls_keeps w w' (m : N) :
  issues_urls w w' -> m < nextURL w ->
  objectURLs w' !! ("blob:" +:+ pretty m) = objectURLs w !! ("blob:" +:+ pretty m).
Proof.
  intros (_ & _ & F) Hm. apply F. intros m' Hm' E.
  apply blob_key_inj in E. lia.
Qed.



(** The two branches of [restoreFile] that make a blob, as one. *)
Lemma restoreFile_content f w :
  malformed f = false ->
  JS.truthy (content f) = true ->
  let u := "blob:" +:+ pretty (nextURL w) in
  restoreFile f w
  = (Ok (set_url (Some u) f),
     with_objectURLs
       (<[u := Blob_of_bytes (restoredBytes f) (type f)]> (objectURLs w))
       (nextURL w + 1) w).
Proof.
  unfold malformed, restoredBytes, storedAsBase64, encodedPayload, restoreFile.
  intros Hok Ht. rewrite Ht in *. cbn [andb] in *.
  destruct (negb (JS.includes (type f) "pdf") && negb (JS.endsWith (name f) ".pptx"));
    cbn [negb] in *.
  - reflexivity.
  - unfold bind, lift. destruct (atob _) as [s|e]; [reflexivity|discriminate Hok].
Qed.

Lemma restoreFile_no_content f w :
  JS.truthy (content f) = false -> restoreFile f w = (Ok f, w).
Proof. intros Ht. unfold restoreFile. now rewrite Ht. Qed.

Lemma restored_as_keeps w w' f f' :
  issues_urls w w' ->
  (forall u, url f' = Some u -> exists m, m < nextURL w /\ u = "blob:" +:+ pretty m) ->
  restored_as w f f' -> restored_as w' f f'.
Proof.
  intros Hi Hu (Hs & Hc & Hn). split; [exact Hs|]. split; [|exact Hn].
  intros Ht. destruct (Hc Ht) as (u & Eu & Hl). exists u. split; [exact Eu|].
  destruct (Hu u Eu) as (m & Hm & ->).
  now rewrite (issues_urls_keeps w w' m Hi Hm).
Qed.

(** The restore, record by record. *)
Lemma mapM_restoreFile_resolves fs :
  Forall (fun f => malformed f = false) fs ->
  forall w,
  exists fs' w',
    mapM restoreFile fs w = (Ok fs', w')
    /\ issues_urls w w'
    /\ Forall2 (restored_as w') fs fs'.
Proof.
  induction 1 as [|f fs Hf _ IH]; intros w.
  - exists [], w. split; [reflexivity|]. split; [apply issues_urls_refl|constructor].
  - cbn [mapM]. unfold bind at 1.
    destruct (JS.truthy (content f)) eqn:Ht.
    + rewrite (restoreFile_content f w Hf Ht). cbv zeta.
      set (w1 := with_objectURLs _ _ w). unfold bind at 1.
      destruct (IH w1) as (fs' & w' & -> & Hi & Hfs').
      do 2 eexists. split; [reflexivity|]. split.
      { eapply issues_urls_trans; [apply issues_urls_one|exact Hi]. }
      constructor; [|exact Hfs'].
      apply (restored_as_keeps w1 w'); [exact Hi| |].
      * cbn. intros u [= <-]. exists (nextURL w). split; [lia|reflexivity].
      * split; [unfold same_but_url; cbn; auto 10|]. split; [|congruence].
        intros _. eexists. split; [reflexivity|]. cbn. apply lookup_insert_eq.
    + rewrite (restoreFile_no_content f w Ht). unfold bind at 1.
      destruct (IH w) as (fs' & w' & -> & Hi & Hfs').
      do 2 eexists. split; [reflexivity|]. split; [exact Hi|].
      constructor; [|exact Hfs'].
      split; [unfold same_but_url; auto 10|]. split; [congruence|reflexivity].
Qed.

End ObjectURLs.


(** X14.  Every restored record can be shown: when every stored payload
    decodes, the mount of a fresh page gives each record with content a
    [url] that resolves to a blob holding the decoded bytes for a Base64
    record and the UTF-8 bytes of the content for a text record, each record
    to its own blob; the blob's type is the record's as [new Blob] keeps it,
    in lower case, or empty when it has a code unit outside U+0020..U+007E.
    A record without content comes back as it was stored. *)
Theorem restored_urls_resolve (w : World) (fs : list PreviewFile) :
  isRestoring w = true ->
  localStorage w !! STORAGE_KEY = Some (TextOfJSON fs) ->
  Forall (fun f => malformed f = false) fs ->
  exists w',
    mount w = (Ok tt, w')
    /\ Forall2 (restored_as w') fs (files w').
Proof.
  intros Hr Hst Hok.
  destruct (mapM_restoreFile_resolves fs Hok w) as (fs' & w1 & Hm & Hi & Hfs').
  rewrite (mount_fresh w Hr), (restoreEffect_session w fs Hst), Hm. cbn [snd].
  set (w2 := with_isRestoring false _).
  pose proof (saveEffect_files w2) as Hf.
  pose proof (saveEffect_objectURLs w2) as Hu.
  unfold saveEffect in *.
  destruct (saveEffect_of_frame (files w2) (isRestoring w2) w2) as (w' & E & _).
  rewrite E in *. cbn [snd] in Hf, Hu.
  exists w'. split; [reflexivity|]. rewrite Hf. cbn.
  eapply Forall2_impl; [exact Hfs'|].
  intros f f' (Hs & Hc & Hn). split; [exact Hs|]. split; [|exact Hn].
  intros Ht. destruct (Hc Ht) as (u & Eu & Hl). exists u.
  split; [exact Eu|]. now rewrite Hu.
Qed.

Lemma restored_urls_resolve_witness :
  exists w',
    mount (freshPage (session [doc_md; doc_pptx])) = (Ok tt, w')
    /\ Forall2 (restored_as w') [doc_md; doc_pptx] (files w').
Proof.
  apply (restored_urls_resolve (freshPage (session [doc_md; doc_pptx]))
           [doc_md; doc_pptx]).
  - reflexivity.
  - vm_compute. reflexivity.
  - repeat constructor; vm_compute; reflexivity.
Defined.

(** The type of a restored blob need not be the record's: [new Blob] puts
    it in lower case, and drops one with a code unit outside
    U+0020..U+007E. *)
Example restored_blob_type :
  blob_type (Blob_of_string "x" "Text/Plain") = "text/plain"
  /\ blob_type (Blob_of_bytes [x25]%byte "application/pdf;Q=1")
     = "application/pdf;q=1"
  /\ blob_type (Blob_of_bytes [x25]%byte ("application/pdf" +:+ latin1 233))
     = EmptyString
  /\ blob_type (Blob_of_bytes [x25]%byte "application/pdf") = "application/pdf".
Proof. repeat split. Qed.

(** ** The card of a document through a summary *)

Section Lifecycle.

Lemma in_map_by_id file_id (g : PreviewFile -> PreviewFile) fs f' :
  (forall f, id (g f) = id f) ->
  In f' (map (fun f => if String.eqb (id f) file_id then g f else f) fs) ->
  id f' = file_id ->
  exists f, In f fs /\ f' = g f.
Proof.
  intros Hg Hin Hid. apply in_map_iff in Hin as (f & <- & Hf).
  destruct (String.eqb_spec (id f) file_id) as [E|E].
  - now exists f.
  - contradiction.
Qed.

Lemma or_else_not_empty t d : d <> EmptyString -> JS.or_else t d <> EmptyString.
Proof.
  intros Hd. unfold JS.or_else. destruct t as [s|]; [|exact Hd].
  now destruct (String.eqb_spec s EmptyString).
Qed.

Lemma or_else_of_text s d : s <> EmptyString -> JS.or_else (Some s) d = s.
Proof.
  intros Hs. unfold JS.or_else. now destruct (String.eqb_spec s EmptyString).
Qed.

End Lifecycle.

(** X15.  What the card of a document shows through a summary.  Once the
    summary is asked for, every record under the document's id is marked,
    its summary view shows the spinner and its header has no summarize
    button.  Once the call is answered, whatever the answer, every record
    under the id holds a summary that is not empty, which the summary view
    shows, and is no longer marked; an answer with a text that is not empty
    is stored as it is.  The header has no summarize button then either: a
    failed summary cannot be asked for again from the card. *)
Theorem summary_lifecycle_on_card (w : World) :
  (forall file f',
      In f' (files (snd (handleSummarize file w))) ->
      id f' = id file ->
      isSummarizing f' = Some true
      /\ renderContent f' ViewSummary = SummaryPanel Spinner
      /\ headerControls f' = [ToggleView; RemoveDoc])
  /\ (forall k o file_id f',
        pending w !! k = Some file_id ->
        In f' (files (snd (handleSummarize_resume k o w))) ->
        id f' = file_id ->
        exists msg,
          msg <> EmptyString
          /\ summary f' = Some msg
          /\ isSummarizing f' = Some false
          /\ renderContent f' ViewSummary = SummaryPanel (SummaryText msg)
          /\ headerControls f' = [ToggleView; RemoveDoc]
          /\ (forall t, o = Responds (Some t) -> t <> EmptyString -> msg = t)).
Proof.
  split.
  - intros file f' Hin Hid.
    rewrite handleSummarize_eq, saveEffect_files in Hin.
    cbn [files with_pending emit with_files] in Hin.
    apply in_map_by_id in Hin as (f & _ & ->); [|reflexivity|exact Hid].
    unfold headerControls. cbn. now rewrite andb_false_r.
  - intros k o file_id f' Hp Hin Hid.
    rewrite (handleSummarize_resume_eq k o w file_id Hp), saveEffect_files in Hin.
    cbv zeta in Hin. cbn [files with_files] in Hin.
    apply in_map_by_id in Hin as (f & _ & ->); [|reflexivity|exact Hid].
    set (msg := match o with
                | Rejects => SUMMARY_ERROR
                | Responds text => JS.or_else text NO_SUMMARY
                end).
    assert (Hne : msg <> EmptyString).
    { destruct o; [discriminate|]. now apply or_else_not_empty. }
    exists msg. split; [exact Hne|]. split; [reflexivity|]. split; [reflexivity|].
    unfold headerControls. cbn [renderContent set_isSummarizing set_summary
      isSummarizing summary JS.truthy_bool JS.truthy negb andb].
    rewrite (or_else_of_text msg _ Hne).
    destruct (String.eqb_spec msg EmptyString); [contradiction|].
    split; [reflexivity|]. split; [reflexivity|].
    intros t -> Ht. unfold msg. now apply or_else_of_text.
Qed.

(** ** A session that survives the reload *)

Section Survival.


Lemma malformed_set_url u f : malformed (set_url u f) = malformed f.
Proof. reflexivity. Qed.


End Survival.


